(** * The Communicator base class and its logging decorator

    A shallow embedding of [curl/communicator/communicator.py]:
    the class-level verbosity flag, the communication statistics of an
    instance, the generator lookup and the [_logging] decorator that wraps
    every collective of a concrete communicator.

    Python objects are modelled by the values the file manipulates,
    exceptions by an explicit result type, and the mutations of [self] and
    of the classes by a state-and-exception monad. *)

From Stdlib Require Import ZArith QArith Qcanon.
From stdpp Require Import base option list strings gmap pretty.

Local Open Scope string_scope.
Local Open Scope Z_scope.

(** ** Values *)

(** A [torch.Tensor] as far as the file looks at it: its shape (so that
    [nelement], [len] and indexing are determined) and its flattened
    contents. *)
Record tensor := Tensor { shape : list N; data : list Z }.

#[warnings="-register-all"]
Inductive pyval :=
| VNone
| VBool (b : bool)
| VInt (z : Z)
| VStr (s : string)
| VTensor (t : tensor)
| VList (l : list pyval)
| VGenerator (handle : nat).

(** Python exceptions raised by the file or by the operations it uses. *)
Inductive exn :=
| TypeError
| IndexError
| AttributeError
| AssertionError (msg : string)
| RuntimeError (msg : string)
| ValueError (msg : string)
| NotImplementedError (msg : string)
| CommunicationError (msg : string).

Inductive outcome (A : Type) :=
| Return (a : A)
| Raise (e : exn).
Arguments Return {A} a.
Arguments Raise {A} e.

Module Torch.

Definition numel (dims : list N) : N := foldr N.mul 1%N dims.

(** [t.nelement()] *)
Definition nelement (t : tensor) : Z := Z.of_N (numel (shape t)).

(** [len(t)]: the first dimension; a 0-d tensor has no length. *)
Definition len (t : tensor) : outcome Z :=
  match shape t with
  | [] => Raise TypeError
  | d :: _ => Return (Z.of_N d)
  end.

(** [t[i]] for an index known to be in range: the [i]-th slice along the
    first dimension. *)
Definition slice (rest : list N) (t : tensor) (i : nat) : tensor :=
  let n := N.to_nat (numel rest) in
  Tensor rest (take n (drop (i * n) (data t))).

(** [t[0]] *)
Definition getitem0 (t : tensor) : outcome tensor :=
  match shape t with
  | [] => Raise IndexError
  | d :: rest =>
      if (d =? 0)%N then Raise IndexError else Return (slice rest t 0)
  end.

(** [iter(t)]: the slices along the first dimension. *)
Definition iter (t : tensor) : outcome (list tensor) :=
  match shape t with
  | [] => Raise TypeError
  | d :: rest => Return (slice rest t <$> seq 0 (N.to_nat d))
  end.

(** [bool(t)]: only defined for a tensor of exactly one element. *)
Definition to_bool (t : tensor) : outcome bool :=
  if nelement t =? 1 then
    match data t with
    | x :: _ => Return (negb (x =? 0))
    | [] => Return false
    end
  else Raise (RuntimeError "Boolean value of Tensor is ambiguous").

End Torch.

(** ** Operations of Python values used by the decorator *)

(** [x.nelement()] *)
Definition py_nelement (x : pyval) : outcome Z :=
  match x with
  | VTensor t => Return (Torch.nelement t)
  | _ => Raise AttributeError
  end.

(** [x[0]] *)
Definition py_getitem0 (x : pyval) : outcome pyval :=
  match x with
  | VList l => match l with v :: _ => Return v | [] => Raise IndexError end
  | VStr s =>
      match s with
      | String c _ => Return (VStr (String c EmptyString))
      | EmptyString => Raise IndexError
      end
  | VTensor t =>
      match Torch.getitem0 t with
      | Return t0 => Return (VTensor t0)
      | Raise e => Raise e
      end
  | _ => Raise TypeError
  end.

(** [len(x)] *)
Definition py_len (x : pyval) : outcome Z :=
  match x with
  | VList l => Return (Z.of_nat (length l))
  | VStr s => Return (Z.of_nat (String.length s))
  | VTensor t => Torch.len t
  | _ => Raise TypeError
  end.

(** [iter(x)], drained *)
Definition py_iter (x : pyval) : outcome (list pyval) :=
  match x with
  | VList l => Return l
  | VStr s => Return ((λ c, VStr (String c EmptyString)) <$> String.list_ascii_of_string s)
  | VTensor t =>
      match Torch.iter t with
      | Return ts => Return (VTensor <$> ts)
      | Raise e => Raise e
      end
  | _ => Raise TypeError
  end.

(** [bool(x)] *)
Definition truthy (x : pyval) : outcome bool :=
  match x with
  | VNone => Return false
  | VBool b => Return b
  | VInt z => Return (negb (z =? 0))
  | VStr s => Return (negb (String.eqb s ""))
  | VTensor t => Torch.to_bool t
  | VList l => Return (match l with [] => false | _ => true end)
  | VGenerator _ => Return true
  end.

(** [args[0]] on the tuple of positional arguments *)
Definition args_getitem0 (args : list pyval) : outcome pyval :=
  match args with
  | a :: _ => Return a
  | [] => Raise IndexError
  end.

(** [sum(x.nelement() for x in xs)]: the generator stops at the first
    element without [nelement]. *)
Fixpoint sum_nelement (xs : list pyval) : outcome Z :=
  match xs with
  | [] => Return 0
  | x :: rest =>
      match py_nelement x with
      | Raise e => Raise e
      | Return n =>
          match sum_nelement rest with
          | Raise e => Raise e
          | Return m => Return (n + m)
          end
      end
  end.

(** ** Classes, instances and the process state *)

(** A class object as far as the file uses it: its method resolution order
    (the class itself first, [Communicator] last) and, when the class
    [__dict__] has one, its own [_Communicator__verbosity] entry.  The
    attribute holds a [bool]: the class body stores [False] and
    [set_verbosity] only stores what passed its [isinstance] assertion. *)
Record class_obj := ClassObj {
  cls_mro : list string;
  cls_verbosity : option bool
}.

(** An instance of a communicator class.  [cls] is [type(self)].  What
    [get_world_size] returns and [BYTES_PER_ELEMENT] are supplied by the
    concrete subclass; [attrs] holds the other instance attributes (the
    generators [g0], [g1], [g0_cuda], [g1_cuda]).  [comm_time] is in seconds;
    the timer readings and their sums are exact rationals here, the rounding
    of Python floats is not modelled. *)
Record communicator := Communicator {
  cls : string;
  world_size : Z;
  BYTES_PER_ELEMENT : Z;
  comm_rounds : Z;
  comm_bytes : Z;
  comm_time : Qc;
  attrs : gmap string pyval
}.

(** One call of the undecorated method: name, positional and keyword
    arguments. *)
Record call := Call {
  call_name : string;
  call_args : list pyval;
  call_kwargs : gmap string pyval
}.

(** The state the decorated call runs in: the classes, the instance [self],
    the wall clock read by [timeit.default_timer], and the calls that reached
    the undecorated method so far (most recent first). *)
Record state := State {
  classes : gmap string class_obj;
  self : communicator;
  clock : Qc;
  backend_calls : list call
}.

Definition set_comm_rounds (v : Z) (c : communicator) : communicator :=
  Communicator (cls c) (world_size c) (BYTES_PER_ELEMENT c) v (comm_bytes c)
    (comm_time c) (attrs c).
Definition set_comm_bytes (v : Z) (c : communicator) : communicator :=
  Communicator (cls c) (world_size c) (BYTES_PER_ELEMENT c) (comm_rounds c) v
    (comm_time c) (attrs c).
Definition set_comm_time (v : Qc) (c : communicator) : communicator :=
  Communicator (cls c) (world_size c) (BYTES_PER_ELEMENT c) (comm_rounds c)
    (comm_bytes c) v (attrs c).

Definition with_self (f : communicator → communicator) (st : state) : state :=
  State (classes st) (f (self st)) (clock st) (backend_calls st).

(** ** The monad of Python statements: state and exceptions.  A raised
    exception keeps the mutations made before it. *)
Definition M (A : Type) : Type := state → outcome A * state.

#[export] Instance M_ret : MRet M := λ A a st, (Return a, st).
#[export] Instance M_bind : MBind M := λ A B f m st,
  match m st with
  | (Return a, st') => f a st'
  | (Raise e, st') => (Raise e, st')
  end.
#[export] Instance M_throw : MThrow exn M := λ A e st, (Raise e, st).

Definition lift {A} (o : outcome A) : M A := λ st, (o, st).
Definition gets {A} (f : state → A) : M A := λ st, (Return (f st), st).
Definition modify (f : state → state) : M unit := λ st, (Return (), f st).

(** ** The class [Communicator] *)

(** Attribute lookup of [_Communicator__verbosity] along an MRO. *)
Fixpoint mro_lookup (classes : gmap string class_obj) (mro : list string)
  : option bool :=
  match mro with
  | [] => None
  | c :: rest =>
      match classes !! c ≫= cls_verbosity with
      | Some b => Some b
      | None => mro_lookup classes rest
      end
  end.

(** [cls.__verbosity], read *)
Definition get_verbosity (classes : gmap string class_obj) (cls : string)
  : option bool :=
  o ← classes !! cls; mro_lookup classes (cls_mro o).

(** [is_verbose], lines 22-24 *)
Definition is_verbose (cls : string) : M bool := λ st,
  match get_verbosity (classes st) cls with
  | Some b => (Return b, st)
  | None => (Raise AttributeError, st)
  end.

(** [set_verbosity], lines 26-29: the assignment [cls.__verbosity = ...]
    creates or replaces the entry in the [__dict__] of [cls], the class the
    method was called on. *)
Definition set_verbosity (cls : string) (verbosity : pyval) : M unit :=
  match verbosity with
  | VBool b =>
      modify (λ st,
        State (alter (λ o, ClassObj (cls_mro o) (Some b)) cls (classes st))
              (self st) (clock st) (backend_calls st))
  | _ => mthrow (AssertionError "Verbosity must be a boolean value")
  end.

(** [reset_communication_stats], lines 118-122 *)
Definition reset_communication_stats : M unit :=
  modify (with_self (set_comm_rounds 0));;
  modify (with_self (set_comm_bytes 0));;
  modify (with_self (set_comm_time 0%Qc)).

(** [_log_communication], lines 133-136.  The method has one positional
    parameter besides [self]; [posargs] are the positional arguments of the
    call, which Python binds before the body runs. *)
Definition _log_communication (posargs : list Z) : M unit :=
  match posargs with
  | [nelement] =>
      modify (with_self (λ c, set_comm_rounds (comm_rounds c + 1) c));;
      modify (with_self (λ c,
        set_comm_bytes (comm_bytes c + nelement * BYTES_PER_ELEMENT c) c))
  | _ => mthrow TypeError
  end.

(** [_log_communication_time], lines 138-139 *)
Definition _log_communication_time (t : Qc) : M unit :=
  modify (with_self (λ c, set_comm_time (comm_time c + t)%Qc c)).

(** *** [get_generator], lines 141-166 *)

(** A resolved [torch.device]: its type ("cpu", "cuda", ...) and optional
    ordinal. *)
Record device := Device { dev_type : string; dev_index : option Z }.

Definition cpu : device := Device "cpu" None.

(** [f"g{idx}_cuda" if device.type == "cuda" else f"g{idx}"] *)
Definition generator_name (idx : Z) (d : device) : string :=
  if decide (dev_type d = "cuda")
  then "g" +:+ pretty idx +:+ "_cuda"
  else "g" +:+ pretty idx.

(** [getattr(self, name, None)] *)
Definition getattr_or_none (self : communicator) (name : string) : pyval :=
  default VNone (attrs self !! name).

Definition get_generator (self : communicator) (idx : Z) (device : option device)
  : outcome pyval :=
  let device := match device with None => cpu | Some d => d end in
  if decide (idx ∉ ({[0; 1]} : gset Z)) then
    Raise (RuntimeError ("Generator idx " +:+ pretty idx +:+ " out of bounds."))
  else
    let name := generator_name idx device in
    match getattr_or_none self name with
    | VNone =>
        Raise (ValueError
          ("Generator " +:+ name +:+ " is not initialized, call curl.init() first"))
    | generator => Return generator
    end.

(** ** The decorator [_logging], lines 169-203 *)

(** The decorated method [func]: its [__name__], what its body returns or
    raises when called on [self] with the given arguments, and how long the
    call takes on the wall clock.  The bodies live in the concrete
    communicators; they do not touch the statistics of [self]. *)
Record pyfunc := PyFunc {
  func_name : string;
  func_body : communicator → list pyval → gmap string pyval → outcome pyval;
  func_duration : communicator → list pyval → gmap string pyval → Qc
}.

(** [self.get_world_size()] *)
Definition get_world_size : M Z := gets (λ st, world_size (self st)).

(** [timeit.default_timer()] *)
Definition default_timer : M Qc := gets clock.

(** [func(self, *args, **kwargs)] *)
Definition call_func (func : pyfunc) (args : list pyval)
    (kwargs : gmap string pyval) : M pyval := λ st,
  (func_body func (self st) args kwargs,
   State (classes st) (self st)
         (clock st + func_duration func (self st) args kwargs)%Qc
         (Call (func_name func) args kwargs :: backend_calls st)).

(** ["batched" in kwargs and kwargs["batched"]], as the [elif] tests it *)
Definition batched_flag (kwargs : gmap string pyval) : outcome bool :=
  match kwargs !! "batched" with
  | Some v => truthy v
  | None => Return false
  end.

(** Lines 184-192: the volume logged for the call. *)
Definition log_volume (func : pyfunc) (args : list pyval)
    (kwargs : gmap string pyval) : M unit :=
  if decide (func_name func = "barrier") then
    _log_communication [0; 1]
  else if decide (func_name func = "scatter") then
    a0 ← lift (args_getitem0 args);
    x ← lift (py_getitem0 a0);
    n ← lift (py_nelement x);
    l ← lift (py_len a0);
    _log_communication [n * (l - 1)]
  else
    batched ← lift (batched_flag kwargs);
    if batched : bool then
      a0 ← lift (args_getitem0 args);
      xs ← lift (py_iter a0);
      nbytes ← lift (sum_nelement xs);
      _log_communication [nbytes]
    else
      a0 ← lift (args_getitem0 args);
      n ← lift (py_nelement a0);
      _log_communication [n].

(** Lines 182-201: the call with its instrumentation.  [self.is_verbose()]
    is the class method called on [type(self)]. *)
Definition instrumented_call (func : pyfunc) (args : list pyval)
    (kwargs : gmap string pyval) : M pyval :=
  verbose ← (c ← gets (λ st, cls (self st)); is_verbose c);
  if verbose : bool then
    log_volume func args kwargs;;
    tic ← default_timer;
    result ← call_func func args kwargs;
    toc ← default_timer;
    _log_communication_time (toc - tic)%Qc;;
    mret result
  else
    call_func func args kwargs.

(** [logging_wrapper], lines 172-201.  The two [return]s of the single-party
    shortcut leave the function; every other path continues with line 182. *)
Definition logging_wrapper (func : pyfunc) (args : list pyval)
    (kwargs : gmap string pyval) : M pyval :=
  ws ← get_world_size;
  if decide (ws < 2) then
    if decide (func_name func ∈ ["gather"; "all_gather"]) then
      a0 ← lift (args_getitem0 args);
      mret (VList [a0])
    else if decide (0 < length args)%nat then
      a0 ← lift (args_getitem0 args);
      mret a0
    else instrumented_call func args kwargs
  else instrumented_call func args kwargs.

(** [_logging(func)] is the wrapper built around [func]. *)
Definition _logging (func : pyfunc)
  : list pyval → gmap string pyval → M pyval :=
  logging_wrapper func.

(** Running a sequence of decorated calls on [self], one after the other;
    each element is the decorated method with its arguments.  What a call
    returns or raises goes to its caller; the state carries on. *)
Definition run_calls (calls : list (pyfunc * list pyval * gmap string pyval))
    (st : state) : state :=
  foldl (λ st c, snd (_logging c.1.1 c.1.2 c.2 st)) st calls.

(** Exceptions alone, for the expressions that do not touch the state. *)
#[export] Instance outcome_ret : MRet outcome := @Return.
#[export] Instance outcome_bind : MBind outcome := λ A B f m,
  match m with
  | Return a => f a
  | Raise e => Raise e
  end.

(** The positional arguments lines 184-192 pass to [_log_communication], as
    a function of the call alone. *)
Definition volume_args (func : pyfunc) (args : list pyval)
    (kwargs : gmap string pyval) : outcome (list Z) :=
  if decide (func_name func = "barrier") then Return [0; 1]
  else if decide (func_name func = "scatter") then
    a0 ← args_getitem0 args;
    x ← py_getitem0 a0;
    n ← py_nelement x;
    l ← py_len a0;
    Return [n * (l - 1)]
  else
    batched ← batched_flag kwargs;
    if batched : bool then
      a0 ← args_getitem0 args;
      xs ← py_iter a0;
      nbytes ← sum_nelement xs;
      Return [nbytes]
    else
      a0 ← args_getitem0 args;
      n ← py_nelement a0;
      Return [n].

(** ** Vocabulary of the statements *)

(** [self.is_verbose()] as the decorator evaluates it. *)
Definition verbosity_of (st : state) : option bool :=
  get_verbosity (classes st) (cls (self st)).

(** The state after [_log_communication(n)]. *)
Definition logged (n : Z) (st : state) : state :=
  with_self (λ c, set_comm_bytes (comm_bytes c + n * BYTES_PER_ELEMENT c) c)
    (with_self (λ c, set_comm_rounds (comm_rounds c + 1) c) st).

(** The state after [func(self, *args, **kwargs)]. *)
Definition called (func : pyfunc) (args : list pyval)
    (kwargs : gmap string pyval) (st : state) : state :=
  snd (call_func func args kwargs st).

(** The state after [_log_communication_time(d)]. *)
Definition timed (d : Qc) (st : state) : state :=
  with_self (λ c, set_comm_time (comm_time c + d)%Qc c) st.

(** Every way a decorated call can leave the state. *)
Inductive call_effect (func : pyfunc) (args : list pyval)
    (kwargs : gmap string pyval) (st : state) : state → Prop :=
| effect_none :
    call_effect func args kwargs st st
| effect_called :
    call_effect func args kwargs st (called func args kwargs st)
| effect_logged_called n :
    0 ≤ n →
    call_effect func args kwargs st (called func args kwargs (logged n st))
| effect_logged_called_timed n :
    0 ≤ n →
    call_effect func args kwargs st
      (timed (func_duration func (self (logged n st)) args kwargs)
             (called func args kwargs (logged n st))).

(** What no decorated call changes: the classes (hence the verbosity), and
    the class, world size, byte width and attributes of [self]. *)
Definition same_setting (st st' : state) : Prop :=
  classes st' = classes st ∧ cls (self st') = cls (self st) ∧
  world_size (self st') = world_size (self st) ∧
  BYTES_PER_ELEMENT (self st') = BYTES_PER_ELEMENT (self st) ∧
  attrs (self st') = attrs (self st).

(** A method body that does not look at the statistics of [self]. *)
Definition stats_blind (func : pyfunc) : Prop :=
  ∀ c c' args kwargs,
    cls c = cls c' → world_size c = world_size c' →
    BYTES_PER_ELEMENT c = BYTES_PER_ELEMENT c' → attrs c = attrs c' →
    func_body func c args kwargs = func_body func c' args kwargs.

(** Every element of a scatter list is a tensor of [m] elements. *)
Definition equally_sized (m : Z) (payloads : list pyval) : bool :=
  forallb (λ v, match v with
                | VTensor t => Torch.nelement t =? m
                | _ => false
                end) payloads.

(** A non-batched call that moves a payload of [k] elements among [ws]
    parties: any method but [barrier] whose first argument is a tensor of
    [k] elements and whose [batched] keyword is absent or false, or a
    [scatter] of [ws] equally sized tensors, which sends [ws - 1] of them. *)
Definition moves (ws k : Z) (c : pyfunc * list pyval * gmap string pyval)
  : bool :=
  if decide (func_name c.1.1 = "barrier") then false
  else if decide (func_name c.1.1 = "scatter") then
    match c.1.2 with
    | VList (VTensor t :: payloads) :: _ =>
        bool_decide (Z.of_nat (length (VTensor t :: payloads)) = ws)
        && equally_sized (Torch.nelement t) payloads
        && (Torch.nelement t * (ws - 1) =? k)
    | _ => false
    end
  else
    match batched_flag c.2, c.1.2 with
    | Return false, VTensor t :: _ => Torch.nelement t =? k
    | _, _ => false
    end.

(** None of the three counters of [self] is smaller in [st'] than in [st]. *)
Definition counters_le (st st' : state) : Prop :=
  comm_rounds (self st) ≤ comm_rounds (self st') ∧
  comm_bytes (self st) ≤ comm_bytes (self st') ∧
  (comm_time (self st) ≤ comm_time (self st'))%Qc.

(** ** A concrete setting for the examples *)

Module Examples.

(** [Communicator] and two concrete communicator classes derived from
    it, none of which has set its own verbosity. *)
Definition hierarchy (v : bool) : gmap string class_obj :=
  {[ "Communicator" := ClassObj ["Communicator"] (Some v);
     "DistributedCommunicator" :=
       ClassObj ["DistributedCommunicator"; "Communicator"] None;
     "InProcessCommunicator" :=
       ClassObj ["InProcessCommunicator"; "Communicator"] None ]}.

Definition party (ws : Z) : communicator :=
  Communicator "DistributedCommunicator" ws 8 0 0 0%Qc ∅.

Definition process (verbose : bool) (ws : Z) : state :=
  State (hierarchy verbose) (party ws) 0%Qc [].

(** A backend method that returns [ret] after one time unit. *)
Definition method (name : string) (ret : pyval) : pyfunc :=
  PyFunc name (λ _ _ _, Return ret) (λ _ _ _, 1%Qc).

Definition ones (n : N) : tensor := Tensor [n] (replicate (N.to_nat n) 1).

(** Three calls of twelve elements each: an [all_reduce], a [broadcast]
    and a [scatter] of four elements to each of four parties. *)
Definition three_calls : list (pyfunc * list pyval * gmap string pyval) :=
  [ (method "all_reduce" VNone, [VTensor (ones 12)], ∅);
    (method "broadcast" VNone,
       [VTensor (ones 12); VInt 0], {[ "batched" := VBool false ]});
    (method "scatter" VNone,
       [VList (replicate 4 (VTensor (ones 4))); VInt 0], ∅) ].

End Examples.

(** * The training example, [examples/mpc_cifar/mpc_cifar.py]

    The functions that decide which party supplies the data, what is
    written to disk, and how the learning rate is set.  The tensors,
    models and files of the libraries appear as the values these functions
    pass around. *)

Module Cifar.


(** The two file names of [save_checkpoint]. *)
Definition checkpoint_file : string := "checkpoint.pth.tar".
Definition best_file : string := "model_best.pth.tar".

(** What [shutil.copyfile] raises when source and destination are the same
    file. *)
Inductive failure := SameFileError.

(** [save_checkpoint], lines 322-329, on the party of rank [rank].  The
    files are a map from file name to the object [torch.save] stored in
    it; [torch.save] creates or replaces [filename], [shutil.copyfile]
    copies it.  The result is the exception raised, if any, and the files
    afterwards.  File names are taken as written: two names stand for the
    same file only when they are equal, and the only failure is the
    [SameFileError] of the copy; other input and output errors of the two
    library calls are left out. *)
Definition save_checkpoint {S : Type} (rank : Z) (state : S) (is_best : bool)
    (filename : string) (files : gmap string S)
  : option failure * gmap string S :=
  if decide (rank = 0) then
    let files := <[filename := state]> files in
    if is_best then
      if decide (filename = best_file) then (Some SameFileError, files)
      else (None, <[best_file := state]> files)
    else (None, files)
  else (None, files).

(** The dictionary saved after an epoch, lines 130-136. *)
Record checkpoint (W : Type) := Checkpoint {
  ck_epoch : Z;
  ck_arch : string;
  ck_state_dict : W;
  ck_best_prec1 : Qc;
  ck_optimizer : W
}.
Arguments Checkpoint {W}.
Arguments ck_epoch {W}.
Arguments ck_best_prec1 {W}.

(** [max(a, b)] of Python: the first argument unless the second is
    greater. *)
Definition py_max (a b : Qc) : Qc := if decide (a < b)%Qc then b else a.

Section Training.
Context {W : Type}.
(** What training and validation of an epoch produce: the precision
    [validate] returns, and the state dictionaries of model and optimizer
    after the epoch. *)
Context (validate : Z → Qc) (state_dict optimizer_state : Z → W).

(** The body of the loop of [run_mpc_cifar], lines 117-138, run for the
    epochs of [epochs] in turn.  The result is the exception that ended the
    loop, if any, the final [best_prec1] and the files. *)
Fixpoint training_epochs (rank : Z) (epochs : list Z) (best_prec1 : Qc)
    (files : gmap string (checkpoint W))
  : option failure * Qc * gmap string (checkpoint W) :=
  match epochs with
  | [] => (None, best_prec1, files)
  | epoch :: epochs =>
      let prec1 := validate epoch in
      let is_best := bool_decide (best_prec1 < prec1)%Qc in
      let best_prec1 := py_max prec1 best_prec1 in
      match save_checkpoint rank
              (Checkpoint (epoch + 1) "LeNet" (state_dict epoch) best_prec1
                 (optimizer_state epoch))
              is_best checkpoint_file files with
      | (Some e, files) => (Some e, best_prec1, files)
      | (None, files) => training_epochs rank epochs best_prec1 files
      end
  end.

(** [for epoch in range(start_epoch, epochs)] *)
Definition training_loop (rank start_epoch epochs : Z) (best_prec1 : Qc)
    (files : gmap string (checkpoint W))
  : option failure * Qc * gmap string (checkpoint W) :=
  training_epochs rank (seqZ start_epoch (epochs - start_epoch)) best_prec1
    files.

End Training.

(** [model_best.pth.tar] holds a checkpoint that records [best] as its
    [best_prec1]. *)
Definition best_in_sync {W} (best : Qc) (files : gmap string (checkpoint W))
  : Prop :=
  ∃ c, files !! best_file = Some c ∧ ck_best_prec1 c = best.

(** [adjust_learning_rate], lines 332-336.  [decayed lr e] is the float
    [lr * (0.1 ** e)]; the parameter groups are dictionaries. *)
Definition adjust_learning_rate {F V : Type} (decayed : F → Z → V)
    (param_groups : list (gmap string V)) (epoch : Z) (lr : F)
  : list (gmap string V) :=
  let new_lr := decayed lr (epoch `div` 5) in
  (λ param_group, <["lr" := new_lr]> param_group) <$> param_groups.

End Cifar.

(** ** Further example data *)

Module Scenarios.

(** A backend method whose transport fails after two time units. *)
Definition failing (name : string) : pyfunc :=
  PyFunc name (λ _ _ _, Raise (CommunicationError "connection reset"))
              (λ _ _ _, 2%Qc).

(** A batch of three tensors of 2, 3 and 5 elements. *)
Definition batch : pyval :=
  VList [VTensor (Examples.ones 2); VTensor (Examples.ones 3);
         VTensor (Examples.ones 5)].

(** Four calls of different volumes: a batched [send], an [all_reduce], a
    [scatter] whose list is shorter than the world and whose later entries
    are not inspected, and a [broadcast] that fails in the backend. *)
Definition mixed_calls : list (pyfunc * list pyval * gmap string pyval) :=
  [ (Examples.method "send" VNone, [batch; VInt 1],
       {[ "batched" := VBool true ]});
    (Examples.method "all_reduce" VNone, [VTensor (Examples.ones 7)], ∅);
    (Examples.method "scatter" VNone,
       [VList [VTensor (Examples.ones 4); VNone; VInt 3]; VInt 0], ∅);
    (failing "broadcast", [VTensor (Examples.ones 1); VInt 0], ∅) ].

(** A party whose CPU generators are provisioned. *)
Definition provisioned : communicator :=
  Communicator "DistributedCommunicator" 2 8 0 0 0%Qc
    {[ "g0" := VGenerator 0; "g1" := VGenerator 1 ]}.

End Scenarios.

(** * Properties *)

(** ** Reasoning about the monad *)

(** Expose the binds of the wrapper, or of the instrumented call, as plain
    matches on the state. *)
Ltac run_wrapper :=
  unfold logging_wrapper, get_world_size, gets, mbind, M_bind.
Ltac run_instrumented :=
  unfold verbosity_of, instrumented_call, is_verbose, gets, mbind, M_bind.

Lemma log_volume_args func args kwargs st :
  log_volume func args kwargs st =
  match volume_args func args kwargs with
  | Return posargs => _log_communication posargs st
  | Raise e => (Raise e, st)
  end.
Proof.
  unfold log_volume, volume_args, mbind, M_bind, outcome_bind, lift.
  repeat case_decide; [done| |].
  - destruct (args_getitem0 args) as [a0|]; [|done].
    destruct (py_getitem0 a0) as [x|]; [|done].
    destruct (py_nelement x) as [n|]; [|done].
    by destruct (py_len a0).
  - destruct (batched_flag kwargs) as [[]|]; [| |done].
    + destruct (args_getitem0 args) as [a0|]; [|done].
      destruct (py_iter a0) as [xs|]; [|done].
      by destruct (sum_nelement xs).
    + destruct (args_getitem0 args) as [a0|]; [|done].
      by destruct (py_nelement a0).
Qed.

(** ** The effect of one decorated call on the state *)

Lemma Qc_elapsed (c d : Qc) : (c + d - c = d)%Qc.
Proof. ring. Qed.

Section OneCall.
Context (func : pyfunc) (args : list pyval) (kwargs : gmap string pyval).
Context (st : state).

Lemma instrumented_call_quiet :
  verbosity_of st = Some false →
  instrumented_call func args kwargs st = call_func func args kwargs st.
Proof.
  run_instrumented.
  by intros ->.
Qed.

Lemma instrumented_call_raise e :
  verbosity_of st = Some true →
  volume_args func args kwargs = Raise e →
  instrumented_call func args kwargs st = (Raise e, st).
Proof.
  run_instrumented.
  intros -> Hv. by rewrite log_volume_args, Hv.
Qed.

Lemma instrumented_call_arity posargs :
  verbosity_of st = Some true →
  volume_args func args kwargs = Return posargs →
  length posargs ≠ 1%nat →
  instrumented_call func args kwargs st = (Raise TypeError, st).
Proof.
  run_instrumented.
  intros -> Hv Hlen. rewrite log_volume_args, Hv.
  by destruct posargs as [|? [|? ?]].
Qed.

Lemma instrumented_call_logged n :
  verbosity_of st = Some true →
  volume_args func args kwargs = Return [n] →
  instrumented_call func args kwargs st =
    let st1 := logged n st in
    match func_body func (self st1) args kwargs with
    | Return r =>
        (Return r, timed (func_duration func (self st1) args kwargs)
                         (called func args kwargs st1))
    | Raise e => (Raise e, called func args kwargs st1)
    end.
Proof.
  run_instrumented.
  intros -> Hv. rewrite log_volume_args, Hv.
  change (_log_communication [n] st) with (Return (), logged n st).
  unfold default_timer, call_func, gets, _log_communication_time, modify,
    called, timed, call_func.
  cbv beta iota. destruct (func_body func _ args kwargs); [|done].
  cbn [snd clock mret M_ret]. by rewrite Qc_elapsed.
Qed.

Lemma logging_wrapper_full :
  2 ≤ world_size (self st) →
  logging_wrapper func args kwargs st = instrumented_call func args kwargs st.
Proof.
  intros Hws. run_wrapper.
  case_decide; [lia|done].
Qed.

Lemma logging_wrapper_gather a0 rest :
  world_size (self st) < 2 →
  func_name func ∈ ["gather"; "all_gather"] →
  args = a0 :: rest →
  logging_wrapper func args kwargs st = (Return (VList [a0]), st).
Proof.
  intros Hws Hname ->.
  run_wrapper.
  by rewrite !decide_True.
Qed.

Lemma logging_wrapper_identity a0 rest :
  world_size (self st) < 2 →
  func_name func ∉ ["gather"; "all_gather"] →
  args = a0 :: rest →
  logging_wrapper func args kwargs st = (Return a0, st).
Proof.
  intros Hws Hname ->.
  run_wrapper.
  rewrite decide_True, decide_False, decide_True; cbn; (done || lia).
Qed.

Lemma logging_wrapper_gather_no_args :
  world_size (self st) < 2 →
  func_name func ∈ ["gather"; "all_gather"] →
  args = [] →
  logging_wrapper func args kwargs st = (Raise IndexError, st).
Proof.
  intros Hws Hname ->.
  run_wrapper.
  by rewrite !decide_True.
Qed.

Lemma logging_wrapper_no_payload :
  world_size (self st) < 2 →
  func_name func ∉ ["gather"; "all_gather"] →
  args = [] →
  logging_wrapper func args kwargs st = instrumented_call func args kwargs st.
Proof.
  intros Hws Hname ->.
  run_wrapper.
  rewrite decide_True, decide_False, decide_False; cbn; (done || lia).
Qed.

End OneCall.

(** ** The logged volume is never negative *)

Lemma nelement_nonneg t : 0 ≤ Torch.nelement t.
Proof. unfold Torch.nelement. lia. Qed.

Lemma py_nelement_nonneg x n : py_nelement x = Return n → 0 ≤ n.
Proof.
  destruct x; try discriminate. intros [= <-]. apply nelement_nonneg.
Qed.

Lemma sum_nelement_nonneg xs n : sum_nelement xs = Return n → 0 ≤ n.
Proof.
  revert n. induction xs as [|x xs IH]; intros n; cbn.
  - intros [= <-]. lia.
  - destruct (py_nelement x) as [k|] eqn:Hk; [|done].
    destruct (sum_nelement xs) as [m|]; [|done].
    intros [= <-]. apply py_nelement_nonneg in Hk. specialize (IH m eq_refl). lia.
Qed.

Lemma py_len_getitem0 a0 x l :
  py_getitem0 a0 = Return x → py_len a0 = Return l → 1 ≤ l.
Proof.
  destruct a0 as [| | |s|t|vs|]; try discriminate; cbn.
  - destruct s; [done|]. intros _ [= <-]. cbn. lia.
  - unfold Torch.getitem0, Torch.len. destruct (shape t) as [|d rest]; [done|].
    destruct (N.eqb_spec d 0); [done|]. intros _ [= <-]. lia.
  - destruct vs; [done|]. intros _ [= <-]. cbn. lia.
Qed.

Lemma volume_args_nonneg func args kwargs n :
  volume_args func args kwargs = Return [n] → 0 ≤ n.
Proof.
  unfold volume_args, mbind, outcome_bind. repeat case_decide; [done| |].
  - destruct (args_getitem0 args) as [a0|]; [|done].
    destruct (py_getitem0 a0) as [x|] eqn:Hx; [|done].
    destruct (py_nelement x) as [k|] eqn:Hk; [|done].
    destruct (py_len a0) as [l|] eqn:Hl; [|done].
    intros [= <-]. apply py_nelement_nonneg in Hk.
    pose proof (py_len_getitem0 _ _ _ Hx Hl). nia.
  - destruct (batched_flag kwargs) as [[]|]; [| |done].
    + destruct (args_getitem0 args) as [a0|]; [|done].
      destruct (py_iter a0) as [xs|]; [|done].
      destruct (sum_nelement xs) as [m|] eqn:Hm; [|done].
      intros [= <-]. by eapply sum_nelement_nonneg.
    + destruct (args_getitem0 args) as [a0|]; [|done].
      destruct (py_nelement a0) as [k|] eqn:Hk; [|done].
      intros [= <-]. by eapply py_nelement_nonneg.
Qed.

(** ** The effects of a decorated call *)

Lemma instrumented_call_effect func args kwargs st :
  call_effect func args kwargs st (snd (instrumented_call func args kwargs st)).
Proof.
  destruct (verbosity_of st) as [[]|] eqn:Hverb.
  - destruct (volume_args func args kwargs) as [posargs|e] eqn:Hvol.
    + destruct (decide (length posargs = 1%nat)) as [Hlen|Hlen].
      * destruct posargs as [|n [|??]]; try done.
        rewrite (instrumented_call_logged _ _ _ _ n) by done. cbv zeta.
        pose proof (volume_args_nonneg _ _ _ _ Hvol).
        destruct (func_body func _ args kwargs); cbn [snd]; by constructor.
      * rewrite (instrumented_call_arity _ _ _ _ posargs) by done. constructor.
    + rewrite (instrumented_call_raise _ _ _ _ e) by done. constructor.
  - rewrite instrumented_call_quiet by done. constructor.
  - revert Hverb. run_instrumented. intros ->. constructor.
Qed.

Lemma logging_wrapper_effect func args kwargs st :
  call_effect func args kwargs st (snd (logging_wrapper func args kwargs st)).
Proof.
  destruct (decide (world_size (self st) < 2)) as [Hws|Hws].
  - destruct (decide (func_name func ∈ ["gather"; "all_gather"])) as [Hn|Hn];
      destruct args as [|a0 rest] eqn:Hargs.
    + rewrite logging_wrapper_gather_no_args by done. constructor.
    + rewrite (logging_wrapper_gather _ _ _ _ a0 rest) by done. constructor.
    + rewrite logging_wrapper_no_payload by done.
      apply instrumented_call_effect.
    + rewrite (logging_wrapper_identity _ _ _ _ a0 rest) by done. constructor.
  - rewrite logging_wrapper_full by lia. apply instrumented_call_effect.
Qed.

Lemma call_effect_same_setting func args kwargs st st' :
  call_effect func args kwargs st st' → same_setting st st'.
Proof. by destruct 1. Qed.

Lemma run_calls_same_setting calls st : same_setting st (run_calls calls st).
Proof.
  revert st. induction calls as [|c calls IH]; intros st; [done|].
  cbn. destruct (IH (snd (logging_wrapper c.1.1 c.1.2 c.2 st))) as (?&?&?&?&?).
  destruct (call_effect_same_setting _ _ _ _ _
    (logging_wrapper_effect c.1.1 c.1.2 c.2 st)) as (?&?&?&?&?).
  unfold same_setting. unfold run_calls in *. by repeat split; etrans.
Qed.

(** ** A run of the instrumented path *)

(** An [all_reduce] of twelve elements between two parties with verbosity
    on: the backend result comes back, one round and [12 * 8] bytes are
    logged, the duration of the call is added to the time, and the backend
    saw the call once. *)
Example all_reduce_verbose_run :
  let t := VTensor (Examples.ones 12) in
  let all_reduce := Examples.method "all_reduce" t in
  let run := logging_wrapper all_reduce [t] ∅ (Examples.process true 2) in
  fst run = Return t ∧
  comm_rounds (self (snd run)) = 1 ∧
  comm_bytes (self (snd run)) = 96 ∧
  comm_time (self (snd run)) = 1%Qc ∧
  backend_calls (snd run) = [Call "all_reduce" [t] ∅].
Proof. vm_compute. repeat split; by apply Qc_is_canon. Qed.

(** ** Barrier under verbosity *)

(** Whenever a call named [barrier] reaches the instrumentation with
    verbosity on, binding the two arguments of [_log_communication(0, 1)] to
    its single parameter raises [TypeError]: nothing is logged and the
    barrier itself is not run. *)
Lemma barrier_verbose_raises func args kwargs st :
  func_name func = "barrier" →
  verbosity_of st = Some true →
  instrumented_call func args kwargs st = (Raise TypeError, st).
Proof.
  intros Hname Hverb.
  apply (instrumented_call_arity _ _ _ _ [0; 1]); [done| |done].
  unfold volume_args. by rewrite decide_True.
Qed.

(** The same through the wrapper, for any number of parties: a [barrier]
    called without arguments is never cut short by the single-party rule. *)
Lemma barrier_verbose_type_error func kwargs st :
  func_name func = "barrier" →
  verbosity_of st = Some true →
  logging_wrapper func [] kwargs st = (Raise TypeError, st).
Proof.
  intros Hname Hverb. destruct (decide (world_size (self st) < 2)).
  - rewrite logging_wrapper_no_payload; [|done| |done].
    + by apply barrier_verbose_raises.
    + rewrite Hname. compute_done.
  - rewrite logging_wrapper_full by lia. by apply barrier_verbose_raises.
Qed.

(** C1 (fails on the code): with verbosity on and two parties, the decorated
    [barrier] does not record a round: the call
    [self._log_communication(0, 1)] raises [TypeError], the counters keep
    their values and the barrier of the backend is never reached. *)
Theorem barrier_verbose_logs_nothing :
  let st := Examples.process true 2 in
  let run := logging_wrapper (Examples.method "barrier" VNone) [] ∅ st in
  fst run = Raise TypeError ∧
  comm_rounds (self (snd run)) = 0 ∧
  comm_bytes (self (snd run)) = 0 ∧
  backend_calls (snd run) = [].
Proof. cbv zeta. by rewrite barrier_verbose_type_error. Qed.

(** ** The single-party shortcut *)

(** With fewer than two parties a call with a positional payload [x] never
    reaches the backend nor the statistics: [gather] and [all_gather] return
    [[x]], every other method returns [x]. *)
Lemma single_party_payload func x rest kwargs st :
  world_size (self st) < 2 →
  logging_wrapper func (x :: rest) kwargs st =
    (Return (if decide (func_name func ∈ ["gather"; "all_gather"])
             then VList [x] else x), st).
Proof.
  intros Hws. case_decide.
  - by apply (logging_wrapper_gather _ _ _ _ x rest).
  - by apply (logging_wrapper_identity _ _ _ _ x rest).
Qed.

(** A call without positional arguments (such as [barrier]) is not cut
    short; with verbosity off it runs the backend method and returns its
    result. *)
Lemma single_party_no_payload_quiet func kwargs st :
  world_size (self st) < 2 →
  func_name func ∉ ["gather"; "all_gather"] →
  verbosity_of st = Some false →
  logging_wrapper func [] kwargs st = call_func func [] kwargs st.
Proof.
  intros Hws Hname Hverb. rewrite logging_wrapper_no_payload by done.
  by apply instrumented_call_quiet.
Qed.

(** C2 (fails on the code): with a single party and verbosity on, the
    payload-less [barrier] does not execute the backend call: the wrapper
    falls through to the instrumentation, where
    [self._log_communication(0, 1)] raises [TypeError]. *)
Theorem single_party_barrier_verbose_not_executed :
  let st := Examples.process true 1 in
  let run := logging_wrapper (Examples.method "barrier" VNone) [] ∅ st in
  fst run = Raise TypeError ∧ backend_calls (snd run) = [] ∧
  fst (call_func (Examples.method "barrier" VNone) [] ∅ st) = Return VNone.
Proof. cbv zeta. by rewrite barrier_verbose_type_error. Qed.

(** C3 (fails on the code): with a single party, the decorated [scatter]
    returns its first argument, the scatter list itself, and not the one
    tensor destined to the caller. *)
Theorem single_party_scatter_returns_list :
  let t := Examples.ones 10 in
  let run := logging_wrapper (Examples.method "scatter" (VTensor t))
               [VList [VTensor t]; VInt 0] ∅ (Examples.process false 1) in
  fst run = Return (VList [VTensor t]) ∧ fst run ≠ Return (VTensor t).
Proof.
  cbv zeta. rewrite single_party_payload by (cbn; lia).
  rewrite decide_False by compute_done. done.
Qed.

(** C3, as the code has it: with a single party, a collective called with
    a positional payload returns what the shortcut of lines 176-180
    prescribes, not the result shape of the operation among several
    parties: [gather] and [all_gather] return the one-element list of their
    input, every other collective returns its first argument unchanged, and
    so [scatter] returns its scatter list, a sequence, whatever that list
    holds.  Neither the statistics nor the backend are touched. *)
Theorem single_party_result_is_first_argument func x rest kwargs st :
  world_size (self st) = 1 →
  logging_wrapper func (x :: rest) kwargs st
  = (Return (if decide (func_name func ∈ ["gather"; "all_gather"])
             then VList [x] else x), st) ∧
  (func_name func = "scatter" →
   ∀ scatter_list, x = VList scatter_list →
     logging_wrapper func (x :: rest) kwargs st
     = (Return (VList scatter_list), st)).
Proof.
  intros Hws. rewrite single_party_payload by lia. split; [done|].
  intros Hname scatter_list ->. rewrite decide_False; [done|].
  rewrite Hname. compute_done.
Qed.

Lemma single_party_result_is_first_argument_witness :
  let t := VTensor (Examples.ones 10) in
  let st := Examples.process true 1 in
  logging_wrapper (Examples.method "all_gather" VNone) [t] ∅ st
    = (Return (VList [t]), st) ∧
  logging_wrapper (Examples.method "scatter" t) [VList [t]; VInt 0] ∅ st
    = (Return (VList [t]), st).
Proof.
  intros t st. split.
  - destruct (single_party_result_is_first_argument
                (Examples.method "all_gather" VNone) t [] ∅ st) as [Hgather _];
      [reflexivity|]. exact Hgather.
  - destruct (single_party_result_is_first_argument
                (Examples.method "scatter" t) (VList [t]) [VInt 0] ∅ st)
      as [_ Hscatter]; [reflexivity|]. apply Hscatter; reflexivity.
Defined.

(** ** Verbosity and the result of a call *)

(** With two parties or more, a call whose volume can be logged delivers
    the same result with verbosity on as with verbosity off. *)
Lemma verbosity_keeps_result func args kwargs n st_on st_off :
  stats_blind func →
  self st_on = self st_off →
  2 ≤ world_size (self st_off) →
  verbosity_of st_on = Some true →
  verbosity_of st_off = Some false →
  volume_args func args kwargs = Return [n] →
  fst (logging_wrapper func args kwargs st_on)
  = fst (logging_wrapper func args kwargs st_off).
Proof.
  intros Hblind Hself Hws Hon Hoff Hvol.
  rewrite !logging_wrapper_full by (rewrite ?Hself; done).
  rewrite (instrumented_call_logged _ _ _ _ n), instrumented_call_quiet by done.
  cbv zeta. cbn [call_func fst].
  assert (func_body func (self (logged n st_on)) args kwargs
          = func_body func (self st_off) args kwargs) as ->.
  { rewrite <- Hself. by apply Hblind. }
  by destruct (func_body func (self st_off) args kwargs).
Qed.

(** C4 (fails on the code): with two parties, the decorated [barrier]
    returns the result of the backend with verbosity off and raises
    [TypeError] with verbosity on; the two runs differ in nothing but the
    flag. *)
Theorem barrier_result_depends_on_verbosity :
  let barrier := Examples.method "barrier" VNone in
  fst (logging_wrapper barrier [] ∅ (Examples.process false 2)) = Return VNone ∧
  fst (logging_wrapper barrier [] ∅ (Examples.process true 2)) = Raise TypeError.
Proof.
  cbv zeta. rewrite !logging_wrapper_full by (cbn; lia). split.
  - by rewrite instrumented_call_quiet.
  - by rewrite barrier_verbose_raises.
Qed.

(** ** Counting rounds and bytes *)

(** The backend call and the recorded time leave rounds and bytes alone. *)
Lemma call_effect_logged func args kwargs n st st' :
  verbosity_of st = Some true →
  2 ≤ world_size (self st) →
  volume_args func args kwargs = Return [n] →
  st' = snd (logging_wrapper func args kwargs st) →
  comm_rounds (self st') = comm_rounds (self st) + 1 ∧
  comm_bytes (self st') = comm_bytes (self st) + n * BYTES_PER_ELEMENT (self st) ∧
  backend_calls st' = Call (func_name func) args kwargs :: backend_calls st.
Proof.
  intros Hverb Hws Hvol ->. rewrite logging_wrapper_full by done.
  rewrite (instrumented_call_logged _ _ _ _ n) by done. cbv zeta.
  by destruct (func_body func _ args kwargs).
Qed.

Lemma scatter_volume func payloads rest kwargs m :
  func_name func = "scatter" →
  (0 < length payloads)%nat →
  equally_sized m payloads = true →
  volume_args func (VList payloads :: rest) kwargs
  = Return [m * (Z.of_nat (length payloads) - 1)].
Proof.
  intros Hname Hlen Hsized. unfold volume_args.
  rewrite decide_False, decide_True by (rewrite ?Hname; done).
  destruct payloads as [|v payloads]; [cbn in Hlen; lia|].
  cbn in Hsized. apply andb_prop in Hsized as [Hv _].
  destruct v; try discriminate. apply Z.eqb_eq in Hv. cbn. by rewrite Hv.
Qed.

(** C6: with verbosity on and [world_size >= 2], a [scatter] whose list
    holds exactly [world_size] tensors of [m] elements each is logged once
    (one more round), with [m * (world_size - 1)] elements: the byte counter
    grows by [m * (world_size - 1) * BYTES_PER_ELEMENT]. *)
Theorem scatter_logs_once func payloads rest kwargs m st :
  func_name func = "scatter" →
  verbosity_of st = Some true →
  2 ≤ world_size (self st) →
  Z.of_nat (length payloads) = world_size (self st) →
  equally_sized m payloads = true →
  let st' := snd (logging_wrapper func (VList payloads :: rest) kwargs st) in
  comm_rounds (self st') = comm_rounds (self st) + 1 ∧
  comm_bytes (self st') =
    comm_bytes (self st)
    + m * (world_size (self st) - 1) * BYTES_PER_ELEMENT (self st).
Proof.
  intros Hname Hverb Hws Hlen Hsized st'.
  destruct (call_effect_logged func (VList payloads :: rest) kwargs
              (m * (world_size (self st) - 1)) st st') as (Hr & Hb & _);
    try done.
  rewrite <- Hlen. apply scatter_volume; [done|lia|done].
Qed.

(** Four parties, ten elements each: one round, [10 * 3 * 8] bytes. *)
Lemma scatter_logs_once_witness :
  let st := Examples.process true 4 in
  let st' := snd (logging_wrapper (Examples.method "scatter" VNone)
                    [VList (replicate 4 (VTensor (Examples.ones 10))); VInt 0]
                    ∅ st) in
  comm_rounds (self st') = 1 ∧ comm_bytes (self st') = 10 * 3 * 8.
Proof.
  apply (scatter_logs_once (Examples.method "scatter" VNone)
           (replicate 4 (VTensor (Examples.ones 10))) [VInt 0] ∅ 10
           (Examples.process true 4));
    [reflexivity | reflexivity | simpl; lia | reflexivity | reflexivity].
Defined.

Lemma moves_volume ws k c :
  moves ws k c = true → volume_args c.1.1 c.1.2 c.2 = Return [k].
Proof.
  destruct c as [[func args] kwargs]. unfold moves. cbn [fst snd].
  repeat case_decide; [done| |].
  - destruct args as [|[| | | | |[|[| | | |t| |] payloads]|] rest]; try done.
    intros [[Hlen%bool_decide_eq_true Hsized]%andb_prop Hk%Z.eqb_eq]%andb_prop.
    rewrite (scatter_volume _ _ _ _ (Torch.nelement t)); try done.
    + rewrite Hlen. by rewrite Hk.
    + cbn. lia.
    + cbn. by rewrite Z.eqb_refl.
  - unfold volume_args. rewrite !decide_False by done.
    destruct (batched_flag kwargs) as [[]|]; try done.
    destruct args as [|[| | | |t| |] rest]; try done.
    intros Hk%Z.eqb_eq. cbn. by rewrite Hk.
Qed.

Lemma run_calls_counts calls k st :
  verbosity_of st = Some true →
  2 ≤ world_size (self st) →
  forallb (moves (world_size (self st)) k) calls = true →
  comm_rounds (self (run_calls calls st))
    = comm_rounds (self st) + Z.of_nat (length calls) ∧
  comm_bytes (self (run_calls calls st))
    = comm_bytes (self st)
      + Z.of_nat (length calls) * k * BYTES_PER_ELEMENT (self st).
Proof.
  revert st. induction calls as [|c calls IH]; intros st Hverb Hws Hall.
  - cbn. lia.
  - cbn in Hall. apply andb_prop in Hall as [Hc Hall].
    apply moves_volume in Hc.
    set (st1 := snd (logging_wrapper c.1.1 c.1.2 c.2 st)).
    destruct (call_effect_logged c.1.1 c.1.2 c.2 k st st1) as (Hr & Hb & _);
      try done.
    destruct (call_effect_same_setting _ _ _ _ _
      (logging_wrapper_effect c.1.1 c.1.2 c.2 st)) as (Hcl & Hcs & Hw & Hbpe & _).
    fold st1 in Hcl, Hcs, Hw, Hbpe.
    destruct (IH st1) as [IHr IHb].
    + unfold verbosity_of in *. by rewrite Hcl, Hcs.
    + by rewrite Hw.
    + by rewrite Hw.
    + change (run_calls (c :: calls) st) with (run_calls calls st1).
      rewrite IHr, IHb, Hr, Hb, Hbpe. cbn [length]. lia.
Qed.

(** C5: with verbosity on and [world_size >= 2], starting from reset
    counters, [N] non-batched calls that each move a payload of [k] elements
    leave [comm_rounds = N] and [comm_bytes = N * k * BYTES_PER_ELEMENT]. *)
Theorem rounds_and_bytes_after_calls calls k st :
  verbosity_of st = Some true →
  2 ≤ world_size (self st) →
  forallb (moves (world_size (self st)) k) calls = true →
  let st' := run_calls calls (snd (reset_communication_stats st)) in
  comm_rounds (self st') = Z.of_nat (length calls) ∧
  comm_bytes (self st')
    = Z.of_nat (length calls) * k * BYTES_PER_ELEMENT (self st).
Proof.
  intros Hverb Hws Hall st'.
  destruct (run_calls_counts calls k (snd (reset_communication_stats st))
              Hverb Hws Hall) as [Hr Hb].
  change (comm_rounds (self (snd (reset_communication_stats st)))) with 0 in Hr.
  change (comm_bytes (self (snd (reset_communication_stats st)))) with 0 in Hb.
  change (BYTES_PER_ELEMENT (self (snd (reset_communication_stats st))))
    with (BYTES_PER_ELEMENT (self st)) in Hb.
  subst st'. rewrite Hr, Hb. split; lia.
Qed.

(** Three such calls among four parties, twelve elements each. *)
Lemma rounds_and_bytes_after_calls_witness :
  let st' := run_calls Examples.three_calls
               (snd (reset_communication_stats (Examples.process true 4))) in
  comm_rounds (self st') = 3 ∧ comm_bytes (self st') = 3 * 12 * 8.
Proof.
  apply (rounds_and_bytes_after_calls Examples.three_calls 12
           (Examples.process true 4));
    [reflexivity | simpl; lia | vm_compute; reflexivity].
Defined.

(** ** The generators *)

Lemma slot_in_range (idx : Z) : idx ∈ ({[0; 1]} : gset Z) ↔ idx = 0 ∨ idx = 1.
Proof. set_solver. Qed.

(** C7: [get_generator] with the device left out is [get_generator] on the
    CPU device; a slot other than 0 and 1 raises the out-of-bounds
    [RuntimeError] whatever the device; for slot 0 or 1 the attribute looked
    up on [self] is [g0] or [g1] for the slot, with the suffix [_cuda]
    exactly when a device is given and its type is "cuda": when that
    attribute is missing (or [None]) the call raises the [ValueError] that
    names it, otherwise it returns the attribute. *)
Theorem get_generator_resolution (self : communicator) (idx : Z)
    (device : option device) :
  get_generator self idx None = get_generator self idx (Some cpu) ∧
  (idx ≠ 0 ∧ idx ≠ 1 →
   get_generator self idx device
   = Raise (RuntimeError ("Generator idx " +:+ pretty idx +:+ " out of bounds."))) ∧
  (idx = 0 ∨ idx = 1 →
   let on_cuda :=
     match device with
     | Some d => bool_decide (dev_type d = "cuda")
     | None => false
     end in
   let name :=
     match bool_decide (idx = 0), on_cuda with
     | true, false => "g0"
     | false, false => "g1"
     | true, true => "g0_cuda"
     | false, true => "g1_cuda"
     end in
   get_generator self idx device =
     match attrs self !! name with
     | None | Some VNone =>
         Raise (ValueError ("Generator " +:+ name
                            +:+ " is not initialized, call curl.init() first"))
     | Some generator => Return generator
     end).
Proof.
  split; [done|]. unfold get_generator. split.
  - intros Hout. rewrite decide_True; [done|]. rewrite slot_in_range. lia.
  - intros Hin. cbv zeta.
    rewrite decide_False by (rewrite slot_in_range; tauto).
    unfold getattr_or_none, generator_name.
    assert (pretty 0 = "0" ∧ pretty 1 = "1") as [H0 H1] by done.
    destruct device as [d|].
    + destruct (decide (dev_type d = "cuda")) as [Hd|Hd];
        [rewrite (bool_decide_eq_true_2 _ Hd)
        |rewrite (bool_decide_eq_false_2 _ Hd)];
        destruct Hin as [-> | ->]; rewrite ?H0, ?H1; cbn;
        by destruct (attrs self !! _) as [[]|].
    + rewrite decide_False by done.
      destruct Hin as [-> | ->]; rewrite ?H0, ?H1; cbn;
        by destruct (attrs self !! _) as [[]|].
Qed.

(** A party whose CPU generators are provisioned, slot 0 as generator 10
    and slot 1 as generator 11: slot 2 is out of bounds, slot 0 on the
    accelerator is not initialized, and on the CPU each slot returns its own
    generator, with the device given or left out. *)
Lemma get_generator_resolution_witness :
  let self := Communicator "DistributedCommunicator" 2 8 0 0 0%Qc
                {[ "g0" := VGenerator 10; "g1" := VGenerator 11 ]} in
  get_generator self 2 (Some (Device "cuda" (Some 0)))
    = Raise (RuntimeError "Generator idx 2 out of bounds.") ∧
  get_generator self 0 (Some (Device "cuda" None))
    = Raise (ValueError
        "Generator g0_cuda is not initialized, call curl.init() first") ∧
  get_generator self 0 (Some (Device "cpu" None)) = Return (VGenerator 10) ∧
  get_generator self 1 None = Return (VGenerator 11).
Proof.
  intros self. split; [|split; [|split]].
  - apply (get_generator_resolution self 2 (Some (Device "cuda" (Some 0)))). lia.
  - apply (get_generator_resolution self 0 (Some (Device "cuda" None))). lia.
  - apply (get_generator_resolution self 0 (Some (Device "cpu" None))). lia.
  - apply (get_generator_resolution self 1 None). lia.
Defined.

(** ** Failures of the instrumentation *)

(** C8 (fails on the code): an [all_reduce] whose tensor is passed by
    keyword.  Recording the statistics raises [IndexError] on [args[0]];
    the wrapper raises the same exception and the backend method, which
    would have returned the reduced tensor, is never called. *)
Lemma stats_failure_aborts_call :
  let t := VTensor (Examples.ones 3) in
  let all_reduce := Examples.method "all_reduce" t in
  let kwargs : gmap string pyval := {[ "tensor" := t ]} in
  let st := Examples.process true 2 in
  let run := logging_wrapper all_reduce [] kwargs st in
  fst (log_volume all_reduce [] kwargs st) = Raise IndexError ∧
  fst (call_func all_reduce [] kwargs st) = Return t ∧
  fst run = Raise IndexError ∧
  backend_calls (snd run) = [].
Proof. vm_compute. done. Qed.

(** C8, as the code has it: the instrumentation is not guarded.  With
    verbosity on and [world_size >= 2], an exception raised while the
    statistics are recorded is the outcome of the wrapped call, and the
    backend method is not run; when recording succeeds the backend method
    runs once and its outcome is what the caller gets. *)
Theorem stats_failure_propagates func args kwargs st :
  verbosity_of st = Some true →
  2 ≤ world_size (self st) →
  let run := logging_wrapper func args kwargs st in
  match log_volume func args kwargs st with
  | (Raise e, _) =>
      run = (Raise e, st)
  | (Return _, st1) =>
      fst run = func_body func (self st1) args kwargs ∧
      backend_calls (snd run)
      = Call (func_name func) args kwargs :: backend_calls st
  end.
Proof.
  intros Hverb Hws run. subst run. rewrite logging_wrapper_full by done.
  rewrite log_volume_args.
  destruct (volume_args func args kwargs) as [posargs|e] eqn:Hvol.
  - destruct posargs as [|n [|m posargs]].
    + rewrite (instrumented_call_arity _ _ _ _ []); by cbn.
    + rewrite (instrumented_call_logged _ _ _ _ n) by done.
      change (_log_communication [n] st) with (Return (), logged n st).
      cbv beta iota zeta. by destruct (func_body func _ args kwargs).
    + rewrite (instrumented_call_arity _ _ _ _ (n :: m :: posargs)); by cbn.
  - by rewrite (instrumented_call_raise _ _ _ _ e).
Qed.

(** A [broadcast] of a list instead of a tensor is refused by the
    instrumentation; an [all_reduce] of a tensor goes through. *)
Lemma stats_failure_propagates_witness :
  let t := VTensor (Examples.ones 3) in
  let st := Examples.process true 2 in
  logging_wrapper (Examples.method "broadcast" VNone) [VList [t]; VInt 0] ∅ st
    = (Raise AttributeError, st) ∧
  fst (logging_wrapper (Examples.method "all_reduce" t) [t] ∅ st) = Return t.
Proof.
  intros t st. split.
  - pose proof (stats_failure_propagates (Examples.method "broadcast" VNone)
                  [VList [t]; VInt 0] ∅ st) as H.
    apply H; [reflexivity | simpl; lia].
  - pose proof (stats_failure_propagates (Examples.method "all_reduce" t)
                  [t] ∅ st) as H.
    apply H; [reflexivity | simpl; lia].
Defined.

(** ** The counters between resets *)

Lemma counters_le_refl st : counters_le st st.
Proof. unfold counters_le. by repeat split. Qed.

Lemma counters_le_trans st1 st2 st3 :
  counters_le st1 st2 → counters_le st2 st3 → counters_le st1 st3.
Proof.
  intros (?&?&?) (?&?&?). repeat split; [lia|lia|by etrans].
Qed.

Lemma Qc_le_plus_nonneg (x d : Qc) : (0 ≤ d → x ≤ x + d)%Qc.
Proof.
  intros Hd. rewrite <- (Qcplus_0_r x) at 1. by apply Qcplus_le_mono_l.
Qed.

Lemma call_effect_monotone func args kwargs st st' :
  0 ≤ BYTES_PER_ELEMENT (self st) →
  (∀ c a k, 0 ≤ func_duration func c a k)%Qc →
  call_effect func args kwargs st st' →
  counters_le st st'.
Proof.
  intros Hbpe Hdur [| |n Hn|n Hn]; unfold counters_le; cbn;
    repeat split; try done; try nia.
  by apply Qc_le_plus_nonneg.
Qed.

(** C9: when [BYTES_PER_ELEMENT] and the measured durations are not
    negative (element counts are products of tensor dimensions and never
    are), no sequence of decorated calls makes [comm_rounds], [comm_bytes]
    or [comm_time] smaller; and [reset_communication_stats] returns with
    all three at zero. *)
Theorem counters_monotone_until_reset calls st :
  0 ≤ BYTES_PER_ELEMENT (self st) →
  Forall (λ c : pyfunc * list pyval * gmap string pyval,
            ∀ s a k, (0 ≤ func_duration c.1.1 s a k)%Qc) calls →
  counters_le st (run_calls calls st) ∧
  ∀ st', ∃ st0, reset_communication_stats st' = (Return (), st0) ∧
                comm_rounds (self st0) = 0 ∧ comm_bytes (self st0) = 0 ∧
                comm_time (self st0) = 0%Qc.
Proof.
  intros Hbpe Hdur. split; [|by eexists].
  revert st Hbpe. induction Hdur as [|c calls Hc _ IH]; intros st Hbpe.
  - apply counters_le_refl.
  - pose proof (logging_wrapper_effect c.1.1 c.1.2 c.2 st) as Heff.
    apply counters_le_trans with (snd (logging_wrapper c.1.1 c.1.2 c.2 st)).
    + by eapply call_effect_monotone.
    + apply IH. apply call_effect_same_setting in Heff as (_&_&_&->&_). done.
Qed.

Lemma counters_monotone_until_reset_witness :
  counters_le (Examples.process true 4)
    (run_calls Examples.three_calls (Examples.process true 4)).
Proof.
  apply (counters_monotone_until_reset Examples.three_calls
           (Examples.process true 4)).
  - simpl. lia.
  - repeat (constructor; [intros; vm_compute; discriminate|]). constructor.
Defined.

(** ** The verbosity flag *)

(** Anything but a [bool] fails the assertion and changes nothing. *)
Lemma set_verbosity_not_bool cls v st :
  (∀ b, v ≠ VBool b) →
  set_verbosity cls v st
  = (Raise (AssertionError "Verbosity must be a boolean value"), st).
Proof. intros Hv. destruct v; try done. by destruct (Hv b). Qed.

(** After [cls.set_verbosity(b)], [is_verbose] called on [cls] or on one of
    its instances returns [b]. *)
Lemma set_verbosity_same_class cls o rest b st :
  classes st !! cls = Some o →
  cls_mro o = cls :: rest →
  let run := set_verbosity cls (VBool b) st in
  fst run = Return () ∧ is_verbose cls (snd run) = (Return b, snd run).
Proof.
  intros Hcls Hmro. split; [done|].
  unfold is_verbose, get_verbosity. cbn.
  rewrite lookup_alter_eq, Hcls. cbn. rewrite Hmro. cbn.
  by rewrite lookup_alter_eq, Hcls.
Qed.

(** C10 (fails on the code): [set_verbosity] called on one communicator
    class stores the flag on that class.  After
    [DistributedCommunicator.set_verbosity(True)], [is_verbose] returns
    [True] for [DistributedCommunicator] and still [False] for
    [InProcessCommunicator] and for [Communicator] itself. *)
Theorem set_verbosity_is_per_class :
  let st := Examples.process false 2 in
  let run := set_verbosity "DistributedCommunicator" (VBool true) st in
  fst run = Return () ∧
  fst (is_verbose "DistributedCommunicator" (snd run)) = Return true ∧
  fst (is_verbose "InProcessCommunicator" (snd run)) = Return false ∧
  fst (is_verbose "Communicator" (snd run)) = Return false.
Proof. vm_compute. done. Qed.

(** * Further properties of the decorator *)

(** ** Calls with verbosity off *)

Lemma quiet_call_keeps_self func args kwargs st :
  verbosity_of st = Some false →
  self (snd (logging_wrapper func args kwargs st)) = self st ∧
  classes (snd (logging_wrapper func args kwargs st)) = classes st.
Proof.
  intros Hquiet. destruct (decide (world_size (self st) < 2)) as [Hws|Hws].
  - destruct (decide (func_name func ∈ ["gather"; "all_gather"])) as [Hn|Hn];
      destruct args as [|a0 rest] eqn:Hargs.
    + by rewrite logging_wrapper_gather_no_args.
    + by rewrite (logging_wrapper_gather _ _ _ _ a0 rest).
    + rewrite logging_wrapper_no_payload, instrumented_call_quiet; done.
    + by rewrite (logging_wrapper_identity _ _ _ _ a0 rest).
  - rewrite logging_wrapper_full, instrumented_call_quiet by (done || lia). done.
Qed.

(** X1: with verbosity off, no sequence of decorated calls changes [self]:
    rounds, bytes and time stay what they were, whatever the calls are and
    whatever the backend returns or raises. *)
Theorem quiet_calls_record_nothing calls st :
  verbosity_of st = Some false →
  self (run_calls calls st) = self st.
Proof.
  revert st. induction calls as [|c calls IH]; intros st Hquiet; [done|].
  destruct (quiet_call_keeps_self c.1.1 c.1.2 c.2 st Hquiet) as [Hself Hcls].
  change (run_calls (c :: calls) st)
    with (run_calls calls (snd (logging_wrapper c.1.1 c.1.2 c.2 st))).
  rewrite IH; [done|]. unfold verbosity_of in *. by rewrite Hself, Hcls.
Qed.

Lemma quiet_calls_record_nothing_witness :
  self (run_calls Scenarios.mixed_calls (Examples.process false 4))
  = Examples.party 4.
Proof.
  apply (quiet_calls_record_nothing Scenarios.mixed_calls
           (Examples.process false 4)).
  reflexivity.
Defined.

(** ** Calls of a single party *)

(** X2: with fewer than two parties, a sequence of decorated calls that
    all have a positional argument leaves the whole state as it was, also
    with verbosity on: no statistics, no time, no call of the backend. *)
Theorem single_party_calls_leave_state calls st :
  world_size (self st) < 2 →
  Forall (λ c : pyfunc * list pyval * gmap string pyval, c.1.2 ≠ []) calls →
  run_calls calls st = st.
Proof.
  intros Hws Hargs. induction Hargs as [|c calls Hc _ IH]; [done|].
  change (run_calls (c :: calls) st)
    with (run_calls calls (snd (logging_wrapper c.1.1 c.1.2 c.2 st))).
  destruct c as [[func args] kwargs]. cbn [fst snd] in *.
  destruct args as [|x rest]; [done|].
  by rewrite single_party_payload.
Qed.

Lemma single_party_calls_leave_state_witness :
  run_calls Scenarios.mixed_calls (Examples.process true 1)
  = Examples.process true 1.
Proof.
  apply (single_party_calls_leave_state Scenarios.mixed_calls
           (Examples.process true 1)).
  - simpl. lia.
  - repeat (constructor; [discriminate|]). constructor.
Defined.

(** X3: with fewer than two parties, [gather] and [all_gather] need their
    tensor as a positional argument: called with keyword arguments only they
    raise [IndexError] on [args[0]] and change nothing. *)
Theorem single_party_gather_by_keyword func kwargs st :
  world_size (self st) < 2 →
  func_name func ∈ ["gather"; "all_gather"] →
  logging_wrapper func [] kwargs st = (Raise IndexError, st).
Proof. intros Hws Hname. by apply logging_wrapper_gather_no_args. Qed.

Lemma single_party_gather_by_keyword_witness :
  logging_wrapper (Examples.method "all_gather" VNone) []
    {[ "tensor" := VTensor (Examples.ones 3) ]} (Examples.process false 1)
  = (Raise IndexError, Examples.process false 1).
Proof.
  apply (single_party_gather_by_keyword (Examples.method "all_gather" VNone)
           {[ "tensor" := VTensor (Examples.ones 3) ]}
           (Examples.process false 1)).
  - simpl. lia.
  - compute_done.
Defined.

(** ** The backend call *)

(** X4: a decorated call runs the backend method at most once, and with
    exactly the name and the arguments it was given. *)
Theorem backend_called_at_most_once func args kwargs st :
  let st' := snd (logging_wrapper func args kwargs st) in
  backend_calls st' = backend_calls st ∨
  backend_calls st' = Call (func_name func) args kwargs :: backend_calls st.
Proof.
  cbv zeta. destruct (logging_wrapper_effect func args kwargs st); auto.
Qed.

(** X5: with two parties or more, a decorated call that returns did run
    the backend method, exactly once, and returns what that method returned
    (for a method that does not read the statistics of [self]). *)
Theorem returned_result_is_backend_result func args kwargs st r :
  stats_blind func →
  2 ≤ world_size (self st) →
  fst (logging_wrapper func args kwargs st) = Return r →
  func_body func (self st) args kwargs = Return r ∧
  backend_calls (snd (logging_wrapper func args kwargs st))
  = Call (func_name func) args kwargs :: backend_calls st.
Proof.
  intros Hblind Hws. rewrite logging_wrapper_full by done.
  destruct (verbosity_of st) as [[]|] eqn:Hverb.
  - destruct (volume_args func args kwargs) as [posargs|e] eqn:Hvol.
    + destruct (decide (length posargs = 1%nat)) as [Hlen|Hlen].
      * destruct posargs as [|n [|??]]; try done.
        rewrite (instrumented_call_logged _ _ _ _ n) by done. cbv zeta.
        rewrite (Hblind (self (logged n st)) (self st)) by done.
        by destruct (func_body func (self st) args kwargs).
      * by rewrite (instrumented_call_arity _ _ _ _ posargs).
    + by rewrite (instrumented_call_raise _ _ _ _ e).
  - rewrite instrumented_call_quiet by done. cbn.
    by destruct (func_body func (self st) args kwargs).
  - revert Hverb. run_instrumented. by intros ->.
Qed.

Lemma returned_result_is_backend_result_witness :
  let t := VTensor (Examples.ones 7) in
  let st := Examples.process true 2 in
  backend_calls (snd (logging_wrapper (Examples.method "all_reduce" t) [t] ∅ st))
  = [Call "all_reduce" [t] ∅].
Proof.
  intros t st.
  apply (returned_result_is_backend_result (Examples.method "all_reduce" t)
           [t] ∅ st t).
  - intros c c' a k _ _ _ _. reflexivity.
  - simpl. lia.
  - vm_compute. reflexivity.
Defined.

(** ** What a logged call adds to the counters *)

Lemma logged_call_run func args kwargs n st :
  verbosity_of st = Some true →
  2 ≤ world_size (self st) →
  volume_args func args kwargs = Return [n] →
  logging_wrapper func args kwargs st =
    match func_body func (self (logged n st)) args kwargs with
    | Return r =>
        (Return r, timed (func_duration func (self (logged n st)) args kwargs)
                         (called func args kwargs (logged n st)))
    | Raise e => (Raise e, called func args kwargs (logged n st))
    end.
Proof.
  intros Hverb Hws Hvol. rewrite logging_wrapper_full by done.
  by rewrite (instrumented_call_logged _ _ _ _ n).
Qed.

(** X6: the volume is logged before the backend runs and the time after
    it.  When the backend method raises, the exception reaches the caller,
    the round and the bytes of the call stay counted, and no time is added. *)
Theorem backend_failure_is_still_counted func args kwargs n e st :
  verbosity_of st = Some true →
  2 ≤ world_size (self st) →
  volume_args func args kwargs = Return [n] →
  func_body func (self (logged n st)) args kwargs = Raise e →
  let run := logging_wrapper func args kwargs st in
  fst run = Raise e ∧
  comm_rounds (self (snd run)) = comm_rounds (self st) + 1 ∧
  comm_bytes (self (snd run))
    = comm_bytes (self st) + n * BYTES_PER_ELEMENT (self st) ∧
  comm_time (self (snd run)) = comm_time (self st).
Proof.
  intros Hverb Hws Hvol Hbody run. subst run.
  by rewrite (logged_call_run _ _ _ n), Hbody.
Qed.

Lemma backend_failure_is_still_counted_witness :
  let run := logging_wrapper (Scenarios.failing "broadcast")
               [VTensor (Examples.ones 5); VInt 0] ∅
               (Examples.process true 2) in
  fst run = Raise (CommunicationError "connection reset") ∧
  comm_rounds (self (snd run)) = 0 + 1 ∧
  comm_bytes (self (snd run)) = 0 + 5 * 8 ∧
  comm_time (self (snd run)) = 0%Qc.
Proof.
  apply (backend_failure_is_still_counted (Scenarios.failing "broadcast")
           [VTensor (Examples.ones 5); VInt 0] ∅ 5
           (CommunicationError "connection reset") (Examples.process true 2));
    [reflexivity | simpl; lia | reflexivity | reflexivity].
Defined.

(** ** The batched and the scatter rule *)

Lemma sum_nelement_tensors (ts : list tensor) :
  sum_nelement (VTensor <$> ts)
  = Return (foldr (λ t acc, Torch.nelement t + acc) 0 ts).
Proof.
  induction ts as [|t ts IH]; [done|].
  cbn [fmap list_fmap sum_nelement py_nelement foldr].
  change (list_fmap _ _ VTensor ts) with (VTensor <$> ts). by rewrite IH.
Qed.

(** X8: a call with a true [batched] keyword whose first argument is a list
    of tensors is logged as one round with the sum of the element counts of
    the whole batch (zero bytes for an empty batch). *)
Theorem batched_call_logs_sum func (ts : list tensor) rest kwargs flag st :
  func_name func ≠ "barrier" →
  func_name func ≠ "scatter" →
  kwargs !! "batched" = Some flag →
  truthy flag = Return true →
  verbosity_of st = Some true →
  2 ≤ world_size (self st) →
  let st' := snd (logging_wrapper func (VList (VTensor <$> ts) :: rest)
                    kwargs st) in
  comm_rounds (self st') = comm_rounds (self st) + 1 ∧
  comm_bytes (self st')
    = comm_bytes (self st)
      + foldr (λ t acc, Torch.nelement t + acc) 0 ts
        * BYTES_PER_ELEMENT (self st).
Proof.
  intros Hbar Hscat Hflag Htrue Hverb Hws st'.
  destruct (call_effect_logged func (VList (VTensor <$> ts) :: rest) kwargs
              (foldr (λ t acc, Torch.nelement t + acc) 0 ts) st st')
    as (Hr & Hb & _); try done.
  unfold volume_args, batched_flag. rewrite !decide_False by done.
  rewrite Hflag, Htrue. cbn. by rewrite sum_nelement_tensors.
Qed.

Lemma batched_call_logs_sum_witness :
  let st' := snd (logging_wrapper (Examples.method "send" VNone)
                    [Scenarios.batch; VInt 1] {[ "batched" := VInt 1 ]}
                    (Examples.process true 2)) in
  comm_rounds (self st') = 0 + 1 ∧
  comm_bytes (self st') = 0 + (2 + (3 + (5 + 0))) * 8.
Proof.
  apply (batched_call_logs_sum (Examples.method "send" VNone)
           [Examples.ones 2; Examples.ones 3; Examples.ones 5] [VInt 1]
           {[ "batched" := VInt 1 ]} (VInt 1) (Examples.process true 2));
    [discriminate | discriminate | reflexivity | reflexivity | reflexivity
    | simpl; lia].
Defined.

(** X9: the volume of a [scatter] is read off the first entry of the list
    and the length of the list alone: the element count of the first tensor
    times the number of remaining entries, whatever these entries are and
    whatever the world size is. *)
Theorem scatter_volume_from_first_entry func t others rest kwargs st :
  func_name func = "scatter" →
  verbosity_of st = Some true →
  2 ≤ world_size (self st) →
  let st' := snd (logging_wrapper func (VList (VTensor t :: others) :: rest)
                    kwargs st) in
  comm_rounds (self st') = comm_rounds (self st) + 1 ∧
  comm_bytes (self st')
    = comm_bytes (self st)
      + Torch.nelement t * Z.of_nat (length others)
        * BYTES_PER_ELEMENT (self st).
Proof.
  intros Hname Hverb Hws st'.
  destruct (call_effect_logged func (VList (VTensor t :: others) :: rest)
              kwargs (Torch.nelement t * Z.of_nat (length others)) st st')
    as (Hr & Hb & _); try done.
  unfold volume_args. rewrite decide_False, decide_True by (rewrite ?Hname; done).
  cbn. do 3 f_equal. lia.
Qed.

Lemma scatter_volume_from_first_entry_witness :
  let st' := snd (logging_wrapper (Examples.method "scatter" VNone)
                    [VList [VTensor (Examples.ones 4); VNone; VInt 3]; VInt 0]
                    ∅ (Examples.process true 4)) in
  comm_rounds (self st') = 0 + 1 ∧ comm_bytes (self st') = 0 + 4 * 2 * 8.
Proof.
  apply (scatter_volume_from_first_entry (Examples.method "scatter" VNone)
           (Examples.ones 4) [VNone; VInt 3] [VInt 0] ∅
           (Examples.process true 4));
    [reflexivity | reflexivity | simpl; lia].
Defined.

(** X10: under verbosity, a [scatter] called with an empty list (as a party
    that is not the source may do) raises [IndexError] on [args[0][0]]:
    nothing is logged and the backend method is not run. *)
Theorem scatter_of_empty_list_raises func rest kwargs st :
  func_name func = "scatter" →
  verbosity_of st = Some true →
  2 ≤ world_size (self st) →
  logging_wrapper func (VList [] :: rest) kwargs st = (Raise IndexError, st).
Proof.
  intros Hname Hverb Hws. rewrite logging_wrapper_full by done.
  apply instrumented_call_raise; [done|].
  unfold volume_args. by rewrite decide_False, decide_True by (rewrite ?Hname; done).
Qed.

Lemma scatter_of_empty_list_raises_witness :
  logging_wrapper (Examples.method "scatter" VNone) [VList []; VInt 0] ∅
    (Examples.process true 2)
  = (Raise IndexError, Examples.process true 2).
Proof.
  apply (scatter_of_empty_list_raises (Examples.method "scatter" VNone)
           [VInt 0] ∅ (Examples.process true 2));
    [reflexivity | reflexivity | simpl; lia].
Defined.

(** ** Totals over a sequence of calls *)

(** X11: under verbosity, for any sequence of calls whose volumes can be
    logged, the rounds counter grows by the number of calls and the bytes
    counter by [BYTES_PER_ELEMENT] times the total of the logged element
    counts, whether or not the backend calls succeed. *)
Theorem bytes_are_total_volume calls (volumes : list Z) st :
  verbosity_of st = Some true →
  2 ≤ world_size (self st) →
  Forall2 (λ (c : pyfunc * list pyval * gmap string pyval) n,
             volume_args c.1.1 c.1.2 c.2 = Return [n]) calls volumes →
  comm_rounds (self (run_calls calls st))
    = comm_rounds (self st) + Z.of_nat (length calls) ∧
  comm_bytes (self (run_calls calls st))
    = comm_bytes (self st)
      + foldr Z.add 0 volumes * BYTES_PER_ELEMENT (self st).
Proof.
  intros Hverb Hws Hall. revert st Hverb Hws.
  induction Hall as [|c n calls volumes Hc _ IH]; intros st Hverb Hws.
  - cbn. lia.
  - set (st1 := snd (logging_wrapper c.1.1 c.1.2 c.2 st)).
    destruct (call_effect_logged c.1.1 c.1.2 c.2 n st st1) as (Hr & Hb & _);
      try done.
    destruct (call_effect_same_setting _ _ _ _ _
      (logging_wrapper_effect c.1.1 c.1.2 c.2 st)) as (Hcl & Hcs & Hw & Hbpe & _).
    fold st1 in Hcl, Hcs, Hw, Hbpe.
    destruct (IH st1) as [IHr IHb].
    + unfold verbosity_of in *. by rewrite Hcl, Hcs.
    + by rewrite Hw.
    + change (run_calls (c :: calls) st) with (run_calls calls st1).
      rewrite IHr, IHb, Hr, Hb, Hbpe. cbn [length foldr]. lia.
Qed.

Lemma bytes_are_total_volume_witness :
  let st' := run_calls Scenarios.mixed_calls (Examples.process true 4) in
  comm_rounds (self st') = 0 + 4 ∧
  comm_bytes (self st') = 0 + (10 + (7 + (8 + (1 + 0)))) * 8.
Proof.
  apply (bytes_are_total_volume Scenarios.mixed_calls [10; 7; 8; 1]
           (Examples.process true 4)).
  - reflexivity.
  - simpl. lia.
  - repeat (constructor; [vm_compute; reflexivity|]). constructor.
Defined.

(** * Further properties of the class [Communicator] *)

(** ** Generators *)

(** X12: [get_generator] looks at the device only to tell "cuda" from
    everything else: two devices that are both CUDA devices, or both not,
    resolve to the same generator (or the same error), whatever their
    ordinals and exact types. *)
Theorem get_generator_device_class self idx d d' :
  (dev_type d = "cuda" ↔ dev_type d' = "cuda") →
  get_generator self idx (Some d) = get_generator self idx (Some d').
Proof.
  intros Hclass. unfold get_generator, generator_name.
  destruct (decide (dev_type d = "cuda")) as [Hd|Hd];
    destruct (decide (dev_type d' = "cuda")) as [Hd'|Hd']; tauto.
Qed.

Lemma get_generator_device_class_witness :
  get_generator Scenarios.provisioned 1 (Some (Device "mps" (Some 3)))
  = get_generator Scenarios.provisioned 1 (Some cpu).
Proof.
  apply (get_generator_device_class Scenarios.provisioned 1
           (Device "mps" (Some 3)) cpu).
  simpl. split; discriminate.
Defined.



Lemma generator_name_distinct idx idx' d d' :
  (idx = 0 ∨ idx = 1) → (idx' = 0 ∨ idx' = 1) →
  idx ≠ idx' ∨ ¬ (dev_type d = "cuda" ↔ dev_type d' = "cuda") →
  generator_name idx d ≠ generator_name idx' d'.
Proof.
  intros Hidx Hidx' Hne. unfold generator_name.
  destruct (decide (dev_type d = "cuda")) as [Hd|Hd];
    destruct (decide (dev_type d' = "cuda")) as [Hd'|Hd'];
    destruct Hidx as [-> | ->], Hidx' as [-> | ->];
    try discriminate; exfalso; destruct Hne; tauto.
Qed.

(** X14: storing a generator under the name of one slot and device class
    makes [get_generator] return it for that slot and device, and changes
    nothing for any other slot or device class. *)
Theorem provisioning_is_per_slot_and_device
    cl ws bpe r b t (m : gmap string pyval) idx d generator :
  idx = 0 ∨ idx = 1 →
  generator ≠ VNone →
  let self := Communicator cl ws bpe r b t m in
  let self' :=
    Communicator cl ws bpe r b t (<[generator_name idx d := generator]> m) in
  get_generator self' idx (Some d) = Return generator ∧
  ∀ idx' d',
    idx ≠ idx' ∨ ¬ (dev_type d = "cuda" ↔ dev_type d' = "cuda") →
    get_generator self' idx' (Some d') = get_generator self idx' (Some d').
Proof.
  intros Hidx Hgen self self'. split.
  - unfold get_generator, getattr_or_none.
    rewrite decide_False by (rewrite slot_in_range; tauto).
    cbn [attrs self']. rewrite lookup_insert_eq. by destruct generator.
  - intros idx' d' Hne. unfold get_generator, getattr_or_none.
    destruct (decide (idx' ∉ ({[0; 1]} : gset Z))) as [|Hin]; [done|].
    apply dec_stable in Hin. apply slot_in_range in Hin.
    cbn [attrs self' self].
    by rewrite lookup_insert_ne by (by apply generator_name_distinct).
Qed.

Lemma provisioning_is_per_slot_and_device_witness :
  let before := Communicator "DistributedCommunicator" 2 8 0 0 0%Qc ∅ in
  let after := Communicator "DistributedCommunicator" 2 8 0 0 0%Qc
                 (<[generator_name 0 (Device "cuda" (Some 1))
                    := VGenerator 7]> ∅) in
  get_generator after 0 (Some (Device "cuda" (Some 1)))
    = Return (VGenerator 7) ∧
  get_generator after 0 (Some cpu) = get_generator before 0 (Some cpu).
Proof.
  intros before after.
  destruct (provisioning_is_per_slot_and_device "DistributedCommunicator"
              2 8 0 0 0%Qc ∅ 0 (Device "cuda" (Some 1)) (VGenerator 7))
    as [Hsame Hother]; [lia | discriminate |].
  split; [exact Hsame|]. apply Hother. right. simpl. intros [H _].
  specialize (H eq_refl). discriminate.
Defined.

(** X15: decorated calls change neither the verbosity that [self] reads
    nor what [get_generator] resolves, however many of them run. *)
Theorem calls_keep_verbosity_and_generators calls st idx device :
  verbosity_of (run_calls calls st) = verbosity_of st ∧
  get_generator (self (run_calls calls st)) idx device
  = get_generator (self st) idx device.
Proof.
  destruct (run_calls_same_setting calls st) as (Hcl & Hcs & _ & _ & Hattrs).
  split.
  - unfold verbosity_of. by rewrite Hcl, Hcs.
  - unfold get_generator, getattr_or_none. by rewrite Hattrs.
Qed.

(** ** The verbosity flag along the class hierarchy *)

Lemma mro_lookup_alter_notin f cls (classes : gmap string class_obj) mro :
  cls ∉ mro →
  mro_lookup (alter f cls classes) mro = mro_lookup classes mro.
Proof.
  induction mro as [|c mro IH]; [done|].
  intros [Hc Hmro]%not_elem_of_cons. cbn.
  rewrite lookup_alter_ne by done. by rewrite IH.
Qed.

Lemma cls_mro_alter b cls (classes : gmap string class_obj) d od :
  classes !! d = Some od →
  ∃ od', alter (λ o, ClassObj (cls_mro o) (Some b)) cls classes !! d = Some od'
         ∧ cls_mro od' = cls_mro od.
Proof.
  intros Hd. destruct (decide (cls = d)) as [->|Hne].
  - rewrite lookup_alter_eq, Hd. by eexists.
  - rewrite lookup_alter_ne, Hd by done. by eexists.
Qed.

(** X16: [set_verbosity] refuses everything that is not a [bool], the
    integers 0 and 1 included: the assertion fails and no class is
    changed. *)
Theorem set_verbosity_rejects_non_bool cls v st :
  (∀ b, v ≠ VBool b) →
  set_verbosity cls v st
  = (Raise (AssertionError "Verbosity must be a boolean value"), st).
Proof. intros Hv. destruct v; try done. by destruct (Hv b). Qed.

Lemma set_verbosity_rejects_non_bool_witness :
  set_verbosity "Communicator" (VInt 1) (Examples.process false 2)
  = (Raise (AssertionError "Verbosity must be a boolean value"),
     Examples.process false 2).
Proof.
  apply (set_verbosity_rejects_non_bool "Communicator" (VInt 1)
           (Examples.process false 2)).
  discriminate.
Defined.

(** X17: after [cls.set_verbosity(b)], [is_verbose] returns [b] on every
    class whose method resolution order reaches [cls] before any class that
    has a flag of its own: on [cls] itself and on the subclasses that never
    set theirs. *)
Theorem set_verbosity_reaches_heirs cls d od pre post b st :
  classes st !! d = Some od →
  cls_mro od = (pre ++ cls :: post)%list →
  is_Some (classes st !! cls) →
  Forall (λ c, c ≠ cls ∧ classes st !! c ≫= cls_verbosity = None) pre →
  is_verbose d (snd (set_verbosity cls (VBool b) st))
  = (Return b, snd (set_verbosity cls (VBool b) st)).
Proof.
  intros Hd Hmro [ocls Hcls] Hpre.
  unfold is_verbose, get_verbosity. cbn [set_verbosity modify snd classes].
  destruct (cls_mro_alter b cls _ _ _ Hd) as (od' & -> & Hsame). cbn.
  rewrite Hsame, Hmro. clear Hmro Hd.
  induction Hpre as [|c pre [Hc Hnone] _ IH]; cbn.
  - by rewrite lookup_alter_eq, Hcls.
  - rewrite lookup_alter_ne by done. rewrite Hnone. apply IH.
Qed.

Lemma set_verbosity_reaches_heirs_witness :
  let st' := snd (set_verbosity "Communicator" (VBool true)
                    (Examples.process false 2)) in
  is_verbose "InProcessCommunicator" st' = (Return true, st').
Proof.
  apply (set_verbosity_reaches_heirs "Communicator" "InProcessCommunicator"
           (ClassObj ["InProcessCommunicator"; "Communicator"] None)
           ["InProcessCommunicator"] [] true (Examples.process false 2)).
  - reflexivity.
  - reflexivity.
  - eexists. reflexivity.
  - repeat constructor. discriminate.
Defined.

(** X18: a class that has a flag of its own, or inherits one from a class
    that comes before [cls] in its method resolution order, keeps reading
    that flag after [cls.set_verbosity(b)]. *)
Theorem set_verbosity_is_shadowed cls d od pre post b b0 st :
  classes st !! d = Some od →
  cls_mro od = (pre ++ post)%list →
  cls ∉ pre →
  mro_lookup (classes st) pre = Some b0 →
  is_verbose d (snd (set_verbosity cls (VBool b) st))
  = (Return b0, snd (set_verbosity cls (VBool b) st)).
Proof.
  intros Hd Hmro Hpre Hlook.
  unfold is_verbose, get_verbosity. cbn [set_verbosity modify snd classes].
  destruct (cls_mro_alter b cls _ _ _ Hd) as (od' & -> & Hsame). cbn.
  rewrite Hsame, Hmro. clear Hmro Hd. revert Hpre Hlook.
  induction pre as [|c pre IH]; [done|].
  intros [Hc Hpre]%not_elem_of_cons. cbn.
  rewrite lookup_alter_ne by done.
  destruct (classes st !! c ≫= cls_verbosity); [by intros [= ->]|]. by apply IH.
Qed.

Lemma set_verbosity_is_shadowed_witness :
  let st := snd (set_verbosity "DistributedCommunicator" (VBool false)
                   (Examples.process false 2)) in
  let st' := snd (set_verbosity "Communicator" (VBool true) st) in
  is_verbose "DistributedCommunicator" st' = (Return false, st').
Proof.
  intros st.
  apply (set_verbosity_is_shadowed "Communicator" "DistributedCommunicator"
           (ClassObj ["DistributedCommunicator"; "Communicator"] (Some false))
           ["DistributedCommunicator"] ["Communicator"] true false st).
  - reflexivity.
  - reflexivity.
  - compute_done.
  - reflexivity.
Defined.

(** X19: [cls.set_verbosity(b)] changes nothing for a class that does not
    have [cls] among its ancestors. *)
Theorem set_verbosity_leaves_strangers cls d od b st :
  classes st !! d = Some od →
  cls ∉ cls_mro od →
  get_verbosity (classes (snd (set_verbosity cls (VBool b) st))) d
  = get_verbosity (classes st) d.
Proof.
  intros Hd Hmro. unfold get_verbosity.
  cbn [set_verbosity modify snd classes].
  destruct (cls_mro_alter b cls _ _ _ Hd) as (od' & -> & Hsame).
  rewrite Hd. cbn. rewrite Hsame. by apply mro_lookup_alter_notin.
Qed.

Lemma set_verbosity_leaves_strangers_witness :
  get_verbosity
    (classes (snd (set_verbosity "DistributedCommunicator" (VBool true)
                     (Examples.process false 2))))
    "InProcessCommunicator"
  = get_verbosity (classes (Examples.process false 2)) "InProcessCommunicator".
Proof.
  apply (set_verbosity_leaves_strangers "DistributedCommunicator"
           "InProcessCommunicator"
           (ClassObj ["InProcessCommunicator"; "Communicator"] None) true
           (Examples.process false 2)).
  - reflexivity.
  - compute_done.
Defined.

(** X20: of two [set_verbosity] calls on the same class the last one
    wins: the state is the one the second call alone would give. *)
Theorem set_verbosity_last_wins cls b1 b2 st :
  set_verbosity cls (VBool b2) (snd (set_verbosity cls (VBool b1) st))
  = set_verbosity cls (VBool b2) st.
Proof.
  unfold set_verbosity, modify. cbn [snd classes self clock backend_calls].
  by rewrite alter_alter_eq.
Qed.

(** ** Reset *)

(** X21: [reset_communication_stats] forgets the history: after any
    sequence of decorated calls it leaves [self] exactly as a reset before
    these calls would have. *)
Theorem reset_forgets_calls calls st :
  self (snd (reset_communication_stats (run_calls calls st)))
  = self (snd (reset_communication_stats st)).
Proof.
  destruct (run_calls_same_setting calls st) as (_ & Hcs & Hws & Hbpe & Hattrs).
  assert (∀ s, self (snd (reset_communication_stats s))
               = Communicator (cls (self s)) (world_size (self s))
                   (BYTES_PER_ELEMENT (self s)) 0 0 0%Qc (attrs (self s)))
    as Hreset by done.
  by rewrite !Hreset, Hcs, Hws, Hbpe, Hattrs.
Qed.

(** * Properties of the training example *)

(** ** Who supplies the data *)



(** ** Checkpoints *)

Lemma save_checkpoint_other_rank {S} rank (state : S) is_best filename files :
  rank ≠ 0 →
  Cifar.save_checkpoint rank state is_best filename files = (None, files).
Proof. intros Hrank. unfold Cifar.save_checkpoint. by rewrite decide_False. Qed.

(** ** The training loop *)

Section TrainingLoop.
Context {W : Type} (validate : Z → Qc) (state_dict optimizer_state : Z → W).

Lemma py_max_cases (a b : Qc) :
  (a ≤ Cifar.py_max a b)%Qc ∧ (b ≤ Cifar.py_max a b)%Qc ∧
  (Cifar.py_max a b = if bool_decide (b < a)%Qc then a else b).
Proof.
  unfold Cifar.py_max. case_decide as Hab; case_bool_decide as Hba.
  - destruct (Qclt_not_le _ _ Hab). by apply Qclt_le_weak.
  - repeat split; [by apply Qclt_le_weak | done].
  - repeat split; [done | by apply Qclt_le_weak].
  - apply Qcnot_lt_le in Hab, Hba.
    assert (a = b) as -> by (by apply Qcle_antisym). done.
Qed.

Lemma training_epochs_step rank epoch epochs best files :
  Cifar.training_epochs validate state_dict optimizer_state rank (epoch :: epochs) best files
  = Cifar.training_epochs validate state_dict optimizer_state rank epochs (Cifar.py_max (validate epoch) best)
      (snd (Cifar.save_checkpoint rank
              (Cifar.Checkpoint (epoch + 1) "LeNet" (state_dict epoch)
                 (Cifar.py_max (validate epoch) best) (optimizer_state epoch))
              (bool_decide (best < validate epoch)%Qc)
              Cifar.checkpoint_file files)).
Proof.
  cbn [Cifar.training_epochs]. unfold Cifar.save_checkpoint.
  case_decide; [|done]. by destruct (bool_decide _).
Qed.

Lemma training_epochs_maximum rank epochs best files :
  let run := Cifar.training_epochs validate state_dict optimizer_state rank
               epochs best files in
  (best ≤ run.1.2)%Qc ∧
  Forall (λ epoch, validate epoch ≤ run.1.2)%Qc epochs ∧
  (run.1.2 = best ∨ ∃ epoch, epoch ∈ epochs ∧ run.1.2 = validate epoch).
Proof.
  cbv zeta. revert best files.
  induction epochs as [|epoch epochs IH]; intros best files.
  - cbn. repeat split; [done | constructor | by left].
  - rewrite training_epochs_step.
    destruct (IH (Cifar.py_max (validate epoch) best)
                (snd (Cifar.save_checkpoint rank
                   (Cifar.Checkpoint (epoch + 1) "LeNet" (state_dict epoch)
                      (Cifar.py_max (validate epoch) best)
                      (optimizer_state epoch))
                   (bool_decide (best < validate epoch)%Qc)
                   Cifar.checkpoint_file files)))
      as (Hbest & Hall & Hone).
    destruct (py_max_cases (validate epoch) best) as (Hle1 & Hle2 & Hmax).
    repeat split; [by etrans | | ].
    + constructor; [by etrans | done].
    + destruct Hone as [-> | (e & He & ->)].
      * rewrite Hmax. case_bool_decide; [right|by left].
        exists epoch. split; [by left | done].
      * right. exists e. split; [by right | done].
Qed.

(** X24: whenever the loop runs to its end, the [best_prec1] it ends with
    is the maximum of the one it started with and the precisions of all
    its epochs: it bounds them all and is one of them. *)
Theorem best_prec1_is_running_maximum rank epochs best files :
  let run := Cifar.training_epochs validate state_dict optimizer_state rank
               epochs best files in
  run.1.1 = None →
  (best ≤ run.1.2)%Qc ∧
  Forall (λ epoch, validate epoch ≤ run.1.2)%Qc epochs ∧
  (run.1.2 = best ∨ ∃ epoch, epoch ∈ epochs ∧ run.1.2 = validate epoch).
Proof. intros run _. apply training_epochs_maximum. Qed.

(** X25: on rank 0, the best-model file follows [best_prec1]: if it
    recorded the best precision before the loop, or if some epoch improved
    on it, then after the loop it holds a checkpoint that records the final
    [best_prec1]. *)
Theorem best_file_records_best_prec1 epochs best files :
  let run := Cifar.training_epochs validate state_dict optimizer_state 0 epochs best files in
  Cifar.best_in_sync best files ∨ (best < run.1.2)%Qc →
  Cifar.best_in_sync run.1.2 run.2.
Proof.
  cbv zeta. revert best files.
  induction epochs as [|epoch epochs IH]; intros best files.
  - cbn. intros [Hsync | Hlt]; [done|].
    by destruct (irreflexivity (<)%Qc best).
  - rewrite training_epochs_step. intros Hpre. apply IH.
    destruct (py_max_cases (validate epoch) best) as (_ & _ & Hmax).
    unfold Cifar.save_checkpoint. rewrite decide_True by done.
    rewrite Hmax in Hpre |- *.
    destruct (bool_decide (best < validate epoch)%Qc) eqn:Hbetter.
    + left. rewrite decide_False by done. cbn [snd].
      eexists. by rewrite lookup_insert_eq.
    + destruct Hpre as [(c & Hc & Hbest) | Hlt]; [left | by right].
      exists c. cbn [snd]. by rewrite lookup_insert_ne.
Qed.

(** X26: on rank 0, after a loop of at least one epoch the checkpoint file
    holds the checkpoint of the last epoch, with the final [best_prec1]. *)
Theorem checkpoint_file_holds_last_epoch epochs last best files :
  let run := Cifar.training_epochs validate state_dict optimizer_state 0 (epochs ++ [last]) best files in
  run.2 !! Cifar.checkpoint_file
  = Some (Cifar.Checkpoint (last + 1) "LeNet" (state_dict last) run.1.2
            (optimizer_state last)).
Proof.
  cbv zeta. revert best files.
  induction epochs as [|epoch epochs IH]; intros best files.
  - cbn [app]. rewrite training_epochs_step. cbn [Cifar.training_epochs fst snd].
    unfold Cifar.save_checkpoint. rewrite decide_True by done.
    destruct (bool_decide _); [rewrite decide_False by done|]; cbn [snd];
      by simplify_map_eq.
  - cbn [app]. rewrite training_epochs_step. apply IH.
Qed.

(** X27: on a party whose rank is not 0 the loop writes nothing, however
    many epochs it runs. *)
Theorem training_writes_only_on_rank_0 rank epochs best files :
  rank ≠ 0 →
  (Cifar.training_epochs validate state_dict optimizer_state rank epochs best files).2 = files.
Proof.
  intros Hrank. revert best. induction epochs as [|epoch epochs IH];
    intros best; [done|].
  rewrite training_epochs_step.
  rewrite save_checkpoint_other_rank by done. apply IH.
Qed.

End TrainingLoop.

Lemma best_prec1_is_running_maximum_witness :
  let validate := λ epoch : Z, if (epoch =? 1) then Qc_of_Z 70 else Qc_of_Z 50 in
  let run := Cifar.training_epochs validate id id 0 [0; 1; 2] 0%Qc ∅ in
  Forall (λ epoch, validate epoch ≤ run.1.2)%Qc [0; 1; 2].
Proof.
  intros validate.
  apply (best_prec1_is_running_maximum validate id id 0 [0; 1; 2] 0%Qc ∅).
  reflexivity.
Defined.

Lemma best_file_records_best_prec1_witness :
  let validate := λ epoch : Z, if (epoch =? 1) then Qc_of_Z 70 else Qc_of_Z 50 in
  let run := Cifar.training_epochs validate id id 0 [0; 1; 2] 0%Qc ∅ in
  Cifar.best_in_sync run.1.2 run.2.
Proof.
  intros validate.
  apply (best_file_records_best_prec1 validate id id [0; 1; 2] 0%Qc ∅).
  right. vm_compute. reflexivity.
Defined.

Lemma training_writes_only_on_rank_0_witness :
  let validate := λ epoch : Z, if (epoch =? 1) then Qc_of_Z 70 else Qc_of_Z 50 in
  (Cifar.training_epochs validate id id 2 [0; 1; 2] 0%Qc ∅).2 = ∅.
Proof.
  intros validate.
  apply (training_writes_only_on_rank_0 validate id id 2 [0; 1; 2] 0%Qc ∅).
  lia.
Defined.

(** ** The learning rate *)

(** X28: [adjust_learning_rate] overwrites the learning rate of every
    parameter group with one value, [lr * 0.1 ** (epoch // 5)], and leaves
    the number of groups and all their other entries alone; epochs with the
    same quotient by 5 give the same result, so the rate is constant over
    each block of five epochs. *)
Theorem learning_rate_steps_every_five_epochs {F V} (decayed : F → Z → V)
    (param_groups : list (gmap string V)) epoch lr :
  let adjusted := Cifar.adjust_learning_rate decayed param_groups epoch lr in
  length adjusted = length param_groups ∧
  Forall (λ g, g !! "lr" = Some (decayed lr (epoch `div` 5))) adjusted ∧
  (∀ i key, key ≠ "lr" →
     (adjusted !! i ≫= (.!! key)) = (param_groups !! i ≫= (.!! key))) ∧
  (∀ epoch', epoch' `div` 5 = epoch `div` 5 →
     Cifar.adjust_learning_rate decayed param_groups epoch' lr = adjusted).
Proof.
  cbv zeta. unfold Cifar.adjust_learning_rate. repeat split.
  - by rewrite length_fmap.
  - apply Forall_fmap, Forall_true. intros g. cbn. by rewrite lookup_insert_eq.
  - intros i key Hkey. rewrite list_lookup_fmap.
    destruct (param_groups !! i) as [g|]; [|done]. cbn.
    by rewrite lookup_insert_ne.
  - by intros epoch' ->.
Qed.

Lemma learning_rate_steps_every_five_epochs_witness :
  let decayed := λ (lr : Qc) (e : Z), (lr * (1 / Qc_of_Z 10) ^ Z.to_nat e)%Qc in
  let groups : list (gmap string Qc) :=
    [ {[ "lr" := 1%Qc; "momentum" := Qc_of_Z 9 ]}; {[ "lr" := Qc_of_Z 2 ]} ] in
  Cifar.adjust_learning_rate decayed groups 7 1%Qc
  = Cifar.adjust_learning_rate decayed groups 9 1%Qc.
Proof.
  intros decayed groups.
  apply (learning_rate_steps_every_five_epochs decayed groups 9 1%Qc).
  reflexivity.
Defined.
